(** * Cycle Youtube Analytics: channel resolver, video aggregator, filters

    A shallow embedding of [app.py]: the channel resolver
    [fetch_channel_info], the aggregator [get_recent_videos], the sidebar
    handlers that add folders and channels, and the hierarchical and
    format filters with the statistics block of the dashboard.

    Python values are modelled as follows.
    - [st.session_state] and everything else the script can observe or
      change lives in one record, [World], which every effectful function
      receives and returns.
    - The remote YouTube Data API is a state machine of an arbitrary type
      [Y]; each endpoint takes the request and the current state and
      answers with a response or an exception and a new state.
    - Library functions that parse text ([datetime.fromisoformat],
      [isodate.parse_duration], [int]) are parameters of the development.
    - Exceptions are values of [exn]; a function that may raise returns
      [Result A = exn + A].
    - Python integers are [Z]; a [timedelta] and a naive [datetime] are
      their exact number of microseconds, as CPython stores them.
    - The cache of [@st.cache_data] is a finite map from the hashed
      arguments to the stored results, which the cached callable receives
      and returns. *)

From Stdlib Require Import ZArith QArith Ascii String Sorted.
From stdpp Require Import base strings list gmap pretty.

Set Default Proof Using "Type".

(** ** Exceptions and results *)

Inductive exn : Type :=
| HttpError (msg : string)    (* googleapiclient.errors.HttpError *)
| KeyError (key : string)     (* d[k] on a dict without k *)
| ValueError (msg : string)   (* a parser rejected its text *)
| OtherError (msg : string).  (* any other Exception (transport, attribute, ...) *)

Definition str_exn (e : exn) : string :=
  match e with
  | HttpError m => m
  | KeyError k => "'" +:+ k +:+ "'"
  | ValueError m => m
  | OtherError m => m
  end.

Definition Result (A : Type) : Type := exn + A.

Definition rbind {A B} (r : Result A) (k : A -> Result B) : Result B :=
  match r with
  | inl e => inl e
  | inr a => k a
  end.

Notation "x <~ r ;; k" := (rbind r (fun x => k))
  (at level 100, r at next level, right associativity).

(** [d[k]]: the value of key [k], or [KeyError]. A key that may be absent
    from a JSON object is an [option] field of the record. *)
Definition getitem {A} (k : string) (field : option A) : Result A :=
  match field with
  | Some a => inr a
  | None => inl (KeyError k)
  end.

(** Truthiness of [d.get('items')]: [None] and the empty list are falsy. *)
Definition truthy_items {A} (items : option (list A)) : bool :=
  match items with
  | Some (_ :: _) => true
  | _ => false
  end.

(** Truthiness of a value that is [None] or a [str]. *)
Definition truthy (s : option string) : bool :=
  match s with
  | Some s => negb (String.eqb s "")
  | None => false
  end.

(** ** Time *)

(** A [timedelta]: its exact length in microseconds. *)
Definition timedelta := Z.

Definition timedelta_days (d : Z) : timedelta := (d * 86400 * 1000000)%Z.

(** [timedelta.total_seconds()] is the float nearest to
    microseconds / 10^6. The model keeps the exact quotient. Because the
    microsecond count is an integer, the quotient is either at least 60 or
    at most 60 - 10^-6; rounding to a double cannot move it across 60, so
    comparing the exact quotient with 60 gives what Python's float
    comparison gives. *)
Definition total_seconds (d : timedelta) : Q := d # 1000000.

Definition Qltb (x y : Q) : bool := negb (Qle_bool y x).

(** A [datetime]: the wall-clock fields as microseconds since
    0001-01-01T00:00:00, and the UTC offset of its [tzinfo] (if aware). *)
Record datetime := mk_datetime {
  dt_wall : Z;
  dt_tzinfo : option timedelta
}.

(** [dt.replace(tzinfo=None)]: same wall clock, no zone. *)
Definition replace_tzinfo_None (dt : datetime) : datetime :=
  {| dt_wall := dt_wall dt; dt_tzinfo := None |}.

(** [s.replace('Z', '+00:00')]: every occurrence is replaced. *)
Fixpoint replace_Z (s : string) : string :=
  match s with
  | EmptyString => EmptyString
  | String c s' =>
      if Ascii.eqb c "Z"%char then "+00:00" +:+ replace_Z s'
      else String c (replace_Z s')
  end.

(** The text parsers of the Python libraries. [inl] is the exception the
    library raises. [parse_duration] gives the [timedelta] that
    [total_seconds()] reads from the parsed object. *)
Class PyLib := {
  fromisoformat : string -> Result datetime;
  parse_duration : string -> Result timedelta;
  int_of_str : string -> Result Z
}.

(** ** Session data: folders, channels, videos *)

Record Folder := mk_folder {
  f_id : string;
  f_name : string
}.

Record Channel := mk_channel {
  c_id : string;
  c_title : string;
  c_handle : string;
  c_thumbnail : string;
  c_uploads_id : string;
  c_folder_id : string
}.

Record Video := mk_video {
  v_id : string;
  v_channel_id : string;
  v_channel_title : string;
  v_title : string;
  v_thumbnail : string;
  v_published_at : datetime;
  v_view_count : Z;
  v_like_count : Z;
  v_comment_count : Z;
  v_duration_sec : Q;
  v_is_short : bool;
  v_url : string
}.

(** ** Responses of the YouTube Data API *)

Record Thumbnail := { th_url : option string }.

Record ChannelSnippet := {
  cs_title : option string;
  cs_customUrl : option string;
  cs_thumbnails : option (gmap string Thumbnail)
}.
Record RelatedPlaylists := { rp_uploads : option string }.
Record ChannelContentDetails := { ccd_relatedPlaylists : option RelatedPlaylists }.
Record ChannelItem := {
  ci_id : option string;
  ci_snippet : option ChannelSnippet;
  ci_contentDetails : option ChannelContentDetails
}.
Record ChannelListResponse := { clr_items : option (list ChannelItem) }.

Record SearchSnippet := { ss_channelId : option string }.
Record SearchItem := { si_snippet : option SearchSnippet }.
Record SearchListResponse := { slr_items : option (list SearchItem) }.

Record PlaylistSnippet := { ps_publishedAt : option string }.
Record PlaylistContentDetails := { pcd_videoId : option string }.
Record PlaylistItem := {
  pi_snippet : option PlaylistSnippet;
  pi_contentDetails : option PlaylistContentDetails
}.
Record PlaylistItemListResponse := { plr_items : option (list PlaylistItem) }.

Record VideoSnippet := {
  vs_title : option string;
  vs_thumbnails : option (gmap string Thumbnail);
  vs_publishedAt : option string
}.
Record VideoStatistics := {
  vst_viewCount : option string;
  vst_likeCount : option string;
  vst_commentCount : option string
}.
Record VideoContentDetails := { vcd_duration : option string }.
Record VideoItem := {
  vi_id : option string;
  vi_snippet : option VideoSnippet;
  vi_statistics : option VideoStatistics;
  vi_contentDetails : option VideoContentDetails
}.
Record VideoListResponse := { vlr_items : option (list VideoItem) }.

(** ** The remote platform *)

(** [youtube.channels().list(part=..., forHandle=h)] or [(..., id=i)]. *)
Inductive ChannelsQuery :=
| forHandle (h : string)
| by_id (i : string).

(** The platform: [build] makes the service object for a key (it may
    raise); the four endpoints are the [execute()] of the four requests
    the script issues. Each may raise and may change the remote state. *)
Class Platform (Y : Type) := {
  build : string -> Y -> Result unit * Y;
  channels_list : string -> ChannelsQuery -> Y -> Result ChannelListResponse * Y;
  search_list : string -> string -> Y -> Result SearchListResponse * Y;
  playlistItems_list : string -> string -> Y -> Result PlaylistItemListResponse * Y;
  videos_list : string -> string -> Y -> Result VideoListResponse * Y
}.

(** One executed request with its outcome. *)
Inductive ApiEvent :=
| ev_channels (q : ChannelsQuery) (r : Result ChannelListResponse)
| ev_search (q : string) (r : Result SearchListResponse)
| ev_playlistItems (playlistId : string) (r : Result PlaylistItemListResponse)
| ev_videos (ids : string) (r : Result VideoListResponse).

Definition is_search (e : ApiEvent) : bool :=
  match e with
  | ev_search _ _ => true
  | _ => false
  end.

(** ** The world *)

Inductive UiMsg :=
| st_error (s : string)
| st_warning (s : string)
| st_success (s : string).

Record World {Y : Type} := mk_world {
  yt : Y;                      (* state of the remote platform *)
  api_log : list ApiEvent;     (* requests executed so far, oldest first *)
  api_key : string;            (* st.session_state.api_key *)
  channels : list Channel;     (* st.session_state.channels *)
  folders : list Folder;       (* st.session_state.folders *)
  ui : list UiMsg;             (* st.error / st.warning / st.success, oldest first *)
  stdout : list string         (* print *)
}.
Arguments World : clear implicits.
Arguments mk_world {Y}.

(** ** Dicts *)

(** A dict with string keys and values, in insertion order. *)
Definition Dict : Type := list (string * string).

(** [d[k] = v]: a key already present keeps its place and takes the new
    value; a new key goes last. *)
Fixpoint dict_set (k v : string) (d : Dict) : Dict :=
  match d with
  | [] => [(k, v)]
  | (k', v') :: d =>
      if String.eqb k' k then (k', v) :: d else (k', v') :: dict_set k v d
  end.

(** [{k: v for .. in ..}] over the pairs in order. *)
Definition dict_of (items : list (string * string)) : Dict :=
  foldl (fun d kv => dict_set kv.1 kv.2 d) [] items.

(** [for k, v in d.items(): if v == name: found = k; break] *)
Fixpoint first_key (name : string) (d : Dict) : option string :=
  match d with
  | [] => None
  | (k, v) :: d => if String.eqb v name then Some k else first_key name d
  end.

(** The key that a value leads back to, when each value is mapped to its
    key going through the dict in order, so that a later key replaces an
    earlier one with the same value: the last key with that value. *)
Fixpoint last_key (name : string) (d : Dict) : option string :=
  match d with
  | [] => None
  | (k, v) :: d =>
      match last_key name d with
      | Some k' => Some k'
      | None => if String.eqb v name then Some k else None
      end
  end.

Section App.
Context {lib : PyLib} {Y : Type} {platform : Platform Y}.

Implicit Types (w : World Y) (e : exn) (t : Z).

(** *** Updates of the world *)

Definition set_yt (y : Y) w : World Y :=
  mk_world y (api_log w) (api_key w) (channels w) (folders w) (ui w) (stdout w).

Definition log_api (ev : ApiEvent) w : World Y :=
  mk_world (yt w) (api_log w ++ [ev]) (api_key w) (channels w) (folders w)
           (ui w) (stdout w).

(** [st.session_state.channels.append(c)] *)
Definition channels_append (c : Channel) w : World Y :=
  mk_world (yt w) (api_log w) (api_key w) (channels w ++ [c]) (folders w)
           (ui w) (stdout w).

(** [st.session_state.folders.append(f)] *)
Definition folders_append (f : Folder) w : World Y :=
  mk_world (yt w) (api_log w) (api_key w) (channels w) (folders w ++ [f])
           (ui w) (stdout w).

(** [st.error(..)], [st.warning(..)], [st.success(..)] *)
Definition show (m : UiMsg) w : World Y :=
  mk_world (yt w) (api_log w) (api_key w) (channels w) (folders w)
           (ui w ++ [m]) (stdout w).

(** [print(..)] *)
Definition print (s : string) w : World Y :=
  mk_world (yt w) (api_log w) (api_key w) (channels w) (folders w)
           (ui w) (stdout w ++ [s]).

(** *** Requests: [request.execute()] against the platform, logged *)

Definition call_channels (key : string) (q : ChannelsQuery) w
  : Result ChannelListResponse * World Y :=
  let '(r, y) := channels_list key q (yt w) in
  (r, log_api (ev_channels q r) (set_yt y w)).

Definition call_search (key q : string) w
  : Result SearchListResponse * World Y :=
  let '(r, y) := search_list key q (yt w) in
  (r, log_api (ev_search q r) (set_yt y w)).

Definition call_playlistItems (key playlistId : string) w
  : Result PlaylistItemListResponse * World Y :=
  let '(r, y) := playlistItems_list key playlistId (yt w) in
  (r, log_api (ev_playlistItems playlistId r) (set_yt y w)).

Definition call_videos (key ids : string) w
  : Result VideoListResponse * World Y :=
  let '(r, y) := videos_list key ids (yt w) in
  (r, log_api (ev_videos ids r) (set_yt y w)).

(** ** [get_youtube_service] (app.py 39-44)

    [true] stands for the service object, [false] for [None]. *)
Definition get_youtube_service (key : string) w : bool * World Y :=
  match build key (yt w) with
  | (inr _, y) => (true, set_yt y w)
  | (inl e, y) =>
      (false, show (st_error ("API 연결 실패: " +:+ str_exn e)) (set_yt y w))
  end.

(** ** [fetch_channel_info] (app.py 46-97) *)

(** Lines 86-93: the record returned for [item]; the fields are read in
    the order of the dict display. *)
Definition channel_record (item : ChannelItem) (target_folder_id : string)
  : Result Channel :=
  id <~ getitem "id" (ci_id item) ;;
  snippet <~ getitem "snippet" (ci_snippet item) ;;
  title <~ getitem "title" (cs_title snippet) ;;
  thumbnails <~ getitem "thumbnails" (cs_thumbnails snippet) ;;
  th <~ getitem "default" (thumbnails !! "default") ;;
  url <~ getitem "url" (th_url th) ;;
  contentDetails <~ getitem "contentDetails" (ci_contentDetails item) ;;
  related <~ getitem "relatedPlaylists" (ccd_relatedPlaylists contentDetails) ;;
  uploads <~ getitem "uploads" (rp_uploads related) ;;
  inr {| c_id := id;
         c_title := title;
         c_handle := default "" (cs_customUrl snippet);
         c_thumbnail := url;
         c_uploads_id := uploads;
         c_folder_id := target_folder_id |}.

(** Line 73: [any(c['id'] == item['id'] for c in channels)] evaluates
    [item['id']] once per channel, so not at all when there is none. *)
Definition is_duplicate (item : ChannelItem) (chans : list Channel)
  : Result bool :=
  match chans with
  | [] => inr false
  | _ => id <~ getitem "id" (ci_id item) ;;
         inr (existsb (fun c => String.eqb (c_id c) id) chans)
  end.

(** Lines 72-93: duplicate check, target folder, the channel record.
    [t] is what [int(time.time())] returns if the function reads the
    clock. *)
Definition register_item (item : ChannelItem) t w
  : Result (option Channel) * World Y :=
  match is_duplicate item (channels w) with
  | inl e => (inl e, w)
  | inr true => (inr None, show (st_warning "이미 등록된 채널입니다.") w)
  | inr false =>
      let '(target_folder_id, w) :=
        match folders w with
        | [] =>
            let new_folder_id := "f-" +:+ pretty t in
            (new_folder_id,
             folders_append {| f_id := new_folder_id; f_name := "기본 폴더" |} w)
        | f :: _ => (f_id f, w)
        end in
      (c <~ channel_record item target_folder_id ;; inr (Some c), w)
  end.

(** [except HttpError as e: st.error(..); return None]; any other
    exception leaves the function. *)
Definition except_HttpError (r : Result (option Channel) * World Y)
  : Result (option Channel) * World Y :=
  match r with
  | (inl (HttpError m), w) =>
      (inr None, show (st_error ("API 오류: " +:+ str_exn (HttpError m))) w)
  | _ => r
  end.

(** Lines 52-55: a handle is looked up by handle, anything else by id. *)
Definition channels_query (identifier : string) : ChannelsQuery :=
  if String.prefix "@" identifier then forHandle identifier
  else by_id identifier.

(** The function calls itself at line 65 with the id the search found;
    nothing in the source bounds the depth, so the model takes fuel and
    answers [None] when it runs out. The [folders] argument of the source
    is never read (the body uses [st.session_state.folders]). *)
Fixpoint fetch_channel_info (fuel : nat) (identifier key : string) t w
  : option (Result (option Channel) * World Y) :=
  match fuel with
  | O => None
  | S fuel =>
      match get_youtube_service key w with
      | (false, w) => Some (inr None, w)
      | (true, w) =>
          except_HttpError <$>
          match call_channels key (channels_query identifier) w with
          | (inl e, w) => Some (inl e, w)
          | (inr response, w) =>
              match clr_items response with
              | Some (item :: _) => Some (register_item item t w)
              | _ =>
                  (* not response.get('items') *)
                  match call_search key identifier w with
                  | (inl e, w) => Some (inl e, w)
                  | (inr search_response, w) =>
                      match slr_items search_response with
                      | Some (first :: _) =>
                          match (snippet <~ getitem "snippet" (si_snippet first) ;;
                                 getitem "channelId" (ss_channelId snippet)) with
                          | inl e => Some (inl e, w)
                          | inr channel_id =>
                              fetch_channel_info fuel channel_id key t w
                          end
                      | _ =>
                          Some (inr None,
                                show (st_error "채널을 찾을 수 없습니다.") w)
                      end
                  end
              end
          end
      end
  end.

(** ** Sidebar handlers *)

(** "폴더 추가" (app.py 176-183). [st.rerun()] ends the script run. *)
Definition add_folder_click (new_folder : string) t w : World Y :=
  if negb (String.eqb new_folder "") then
    show (st_success ("'" +:+ new_folder +:+ "' 추가됨"))
         (folders_append {| f_id := "f-" +:+ pretty t; f_name := new_folder |} w)
  else w.

(** Line 190. *)
Definition folder_options (fs : list Folder) : Dict :=
  dict_of ((fun f => (f_id f, f_name f)) <$> fs).

(** [st.selectbox(label, options=list(d.keys()), format_func=lambda x: d[x])]
    over a dict [d] that is not empty. The box shows the options by their
    labels, the values of [d]. While no entry has been reported to the
    script as picked ([pick = None]) the box gives its default, the first
    option. When the entry at a position has been reported ([Some i]),
    what is reported is its label, and the label is mapped back to an
    option: of several options with that label, the last. (A position
    beyond the entries is read as the first entry.) *)
Definition selectbox_format (d : Dict) (pick : option nat) : option string :=
  match d with
  | [] => None
  | (k, v) :: _ =>
      match pick with
      | None => Some k
      | Some i => last_key (nth i d.*2 v) d
      end
  end.

(** Lines 190-200: the select box of the add form, over the folder ids
    shown by the folder names; [None] without folders, where the box is
    not drawn. *)
Definition selected_folder_for_add (fs : list Folder) (pick : option nat)
  : option string :=
  match folder_options fs with
  | [] => None
  | d => selectbox_format d pick
  end.

Definition set_folder_id (c : Channel) (fid : string) : Channel :=
  {| c_id := c_id c; c_title := c_title c; c_handle := c_handle c;
     c_thumbnail := c_thumbnail c; c_uploads_id := c_uploads_id c;
     c_folder_id := fid |}.

(** "채널 추가하기" (app.py 202-216). The select box was evaluated before
    the button, on the folders as they were then. *)
Definition add_channel_click (fuel : nat) (new_channel_id : string)
    (pick : option nat) t w : option (Result unit * World Y) :=
  let selected := selected_folder_for_add (folders w) pick in
  if String.eqb (api_key w) "" then
    Some (inr tt, show (st_error "API Key를 먼저 입력하세요.") w)
  else if negb (String.eqb new_channel_id "") then
    match fetch_channel_info fuel new_channel_id (api_key w) t w with
    | None => None
    | Some (inl e, w) => Some (inl e, w)
    | Some (inr None, w) => Some (inr tt, w)
    | Some (inr (Some channel_info), w) =>
        let channel_info :=
          match selected with
          | Some fid =>
              if truthy selected then set_folder_id channel_info fid
              else channel_info
          | None => channel_info
          end in
        Some (inr tt,
              show (st_success ("'" +:+ c_title channel_info +:+ "' 추가 완료!"))
                   (channels_append channel_info w))
    end
  else Some (inr tt, w).

(** ** [get_recent_videos] (app.py 99-159) *)

(** Lines 121-124, one uploads-feed item: parse its [publishedAt], and
    if the naive value is not before [one_week_ago] append its video id. *)
Definition window_step (one_week_ago : Z) (video_ids : list string)
    (item : PlaylistItem) : Result (list string) :=
  snippet <~ getitem "snippet" (pi_snippet item) ;;
  text <~ getitem "publishedAt" (ps_publishedAt snippet) ;;
  published_at <~ fromisoformat (replace_Z text) ;;
  if (one_week_ago <=? dt_wall (replace_tzinfo_None published_at))%Z then
    contentDetails <~ getitem "contentDetails" (pi_contentDetails item) ;;
    videoId <~ getitem "videoId" (pcd_videoId contentDetails) ;;
    inr (video_ids ++ [videoId])
  else inr video_ids.

Fixpoint window_ids (one_week_ago : Z) (items : list PlaylistItem)
    (video_ids : list string) : Result (list string) :=
  match items with
  | [] => inr video_ids
  | item :: items =>
      video_ids <~ window_step one_week_ago video_ids item ;;
      window_ids one_week_ago items video_ids
  end.

(** [int(d.get(k, 0))] *)
Definition int_get (field : option string) : Result Z :=
  match field with
  | Some s => int_of_str s
  | None => inr 0%Z
  end.

(** Lines 137-153, one detail record: the dict appended to [all_videos].
    The default of [thumbnails.get('medium', thumbnails['default'])] is
    evaluated before the call, so ['default'] must be present. *)
Definition make_video (channel : Channel) (item : VideoItem) : Result Video :=
  contentDetails <~ getitem "contentDetails" (vi_contentDetails item) ;;
  text <~ getitem "duration" (vcd_duration contentDetails) ;;
  duration <~ parse_duration text ;;
  let is_short := Qltb (total_seconds duration) 60 in
  id <~ getitem "id" (vi_id item) ;;
  snippet <~ getitem "snippet" (vi_snippet item) ;;
  title <~ getitem "title" (vs_title snippet) ;;
  thumbnails <~ getitem "thumbnails" (vs_thumbnails snippet) ;;
  fallback <~ getitem "default" (thumbnails !! "default") ;;
  url <~ getitem "url" (th_url (default fallback (thumbnails !! "medium"))) ;;
  published <~ getitem "publishedAt" (vs_publishedAt snippet) ;;
  published_at <~ fromisoformat (replace_Z published) ;;
  statistics <~ getitem "statistics" (vi_statistics item) ;;
  view_count <~ int_get (vst_viewCount statistics) ;;
  like_count <~ int_get (vst_likeCount statistics) ;;
  comment_count <~ int_get (vst_commentCount statistics) ;;
  inr {| v_id := id;
         v_channel_id := c_id channel;
         v_channel_title := c_title channel;
         v_title := title;
         v_thumbnail := url;
         v_published_at := published_at;
         v_view_count := view_count;
         v_like_count := like_count;
         v_comment_count := comment_count;
         v_duration_sec := total_seconds duration;
         v_is_short := is_short;
         v_url := "https://www.youtube.com/watch?v=" +:+ id |}.

(** Lines 136-153: [all_videos] is appended to in place, so what was
    appended before an exception stays. *)
Fixpoint append_videos (channel : Channel) (items : list VideoItem)
    (all_videos : list Video) : Result unit * list Video :=
  match items with
  | [] => (inr tt, all_videos)
  | item :: items =>
      match make_video channel item with
      | inl e => (inl e, all_videos)
      | inr v => append_videos channel items (all_videos ++ [v])
      end
  end.

(** Lines 112-153: the body of the [try] for one channel. *)
Definition fetch_channel_videos (key : string) (one_week_ago : Z)
    (channel : Channel) (all_videos : list Video) w
  : Result unit * list Video * World Y :=
  match call_playlistItems key (c_uploads_id channel) w with
  | (inl e, w) => (inl e, all_videos, w)
  | (inr pl_response, w) =>
      match window_ids one_week_ago (default [] (plr_items pl_response)) [] with
      | inl e => (inl e, all_videos, w)
      | inr [] => (inr tt, all_videos, w)       (* continue *)
      | inr video_ids =>
          match call_videos key (String.concat "," video_ids) w with
          | (inl e, w) => (inl e, all_videos, w)
          | (inr vid_response, w) =>
              let '(r, all_videos) :=
                append_videos channel (default [] (vlr_items vid_response))
                              all_videos in
              (r, all_videos, w)
          end
      end
  end.

(** Lines 110-157: one turn of the loop, with its [except Exception]. *)
Definition channel_turn (key : string) (one_week_ago : Z)
    (st : list Video * World Y) (channel : Channel) : list Video * World Y :=
  match fetch_channel_videos key one_week_ago channel st.1 st.2 with
  | (inr _, all_videos, w) => (all_videos, w)
  | (inl e, all_videos, w) =>
      (all_videos,
       print ("Error fetching " +:+ c_title channel +:+ ": " +:+ str_exn e) w)
  end.

(** Lines 110-157: the [for] loop over the channels. *)
Definition channel_loop (key : string) (one_week_ago : Z)
    (chans : list Channel) (st : list Video * World Y) : list Video * World Y :=
  foldl (channel_turn key one_week_ago) st chans.

(** The body of the function, which runs when the cache of line 99 has
    no answer; the callable of the source is [cached_get_recent_videos]
    below. [now] is the wall clock of the naive [datetime.now()] the body
    reads. *)
Definition get_recent_videos (_channels : list Channel) (key : string)
    (now : Z) w : list Video * World Y :=
  match _channels with
  | [] => ([], w)
  | _ =>
      match get_youtube_service key w with
      | (false, w) => ([], w)
      | (true, w) =>
          let one_week_ago := (now - timedelta_days 7)%Z in
          channel_loop key one_week_ago _channels ([], w)
      end
  end.

(** ** The cache of [get_recent_videos] (app.py 99)

    [@st.cache_data(ttl=600, show_spinner=False)] keeps the results of the
    function by the hash of its arguments. A parameter whose name starts
    with an underscore is left out of the hash, so the entries are keyed
    by [api_key] alone. An entry holds the list returned and the [st.*]
    messages shown while it was computed; it lives for [ttl] seconds from
    the moment it was stored, by a clock of the cache read in seconds.
    [st.cache_data.clear()] (lines 215 and 256) leaves the empty map. *)
Record CacheEntry := mk_entry {
  ce_expires : Q;              (* reading of the clock at which the entry is dead *)
  ce_value : list Video;       (* the list the body returned *)
  ce_messages : list UiMsg     (* what the body showed, replayed on a hit *)
}.

Definition ttl : Q := 600.

(** The entry of [key], if it has not expired at the reading [clock]. *)
Definition cache_lookup (cache : gmap string CacheEntry) (key : string)
    (clock : Q) : option CacheEntry :=
  match cache !! key with
  | Some e => if Qltb clock (ce_expires e) then Some e else None
  | None => None
  end.

(** The messages of a cached call, shown again. *)
Definition replay (messages : list UiMsg) w : World Y :=
  foldl (fun w m => show m w) w messages.

(** The callable [get_recent_videos] of the source: the cache is asked
    first, at the reading [clock]; on a hit the cached list is returned
    and the body does not run; on a miss the body runs on the arguments
    of this call and its result is stored at the reading [stored_at]. *)
Definition cached_get_recent_videos (cache : gmap string CacheEntry)
    (clock stored_at : Q) (_channels : list Channel) (key : string)
    (now : Z) w : list Video * gmap string CacheEntry * World Y :=
  match cache_lookup cache key clock with
  | Some e => (ce_value e, cache, replay (ce_messages e) w)
  | None =>
      let '(videos, w') := get_recent_videos _channels key now w in
      (videos,
       <[key := {| ce_expires := (stored_at + ttl)%Q;
                   ce_value := videos;
                   ce_messages := drop (length (ui w)) (ui w') |}]> cache,
       w')
  end.

End App.

(** ** Filters and statistics (app.py 267-315) *)

(** A selector of the sidebar is [None] or an id; [if selector:] holds for
    a non-empty id. *)
Definition when_set (selector : option string) : option string :=
  if truthy selector then selector else None.

(** Lines 273-280. *)
Definition hierarchical_filter (videos : list Video) (chans : list Channel)
    (selected_channel_id selected_folder_id : option string) : list Video :=
  match when_set selected_channel_id with
  | Some cid =>
      List.filter (fun v => String.eqb (v_channel_id v) cid) videos
  | None =>
      match when_set selected_folder_id with
      | Some fid =>
          let folder_channel_ids :=
            c_id <$> List.filter (fun c => String.eqb (c_folder_id c) fid) chans in
          List.filter
            (fun v => existsb (String.eqb (v_channel_id v)) folder_channel_ids)
            videos
      | None => videos
      end
  end.

(** The radio "영상 형식": "전체", "롱폼(>1분)", "숏폼(<1분)". *)
Inductive TypeFilter := All | LongForm | ShortForm.

(** Lines 291-294. *)
Definition format_filter (type_filter : TypeFilter) (videos : list Video)
  : list Video :=
  match type_filter with
  | LongForm => List.filter (fun v => negb (v_is_short v)) videos
  | ShortForm => List.filter v_is_short videos
  | All => videos
  end.

Definition filter_videos (videos : list Video) (chans : list Channel)
    (selected_channel_id selected_folder_id : option string)
    (type_filter : TypeFilter) : list Video :=
  format_filter type_filter
    (hierarchical_filter videos chans selected_channel_id selected_folder_id).

(** [sum(..)]: from 0, left to right. *)
Definition py_sum (l : list Z) : Z := fold_left Z.add l 0%Z.

Record Stats := mk_stats {
  total_videos : Z;
  total_views : Z;
  total_likes : Z;
  total_comments : Z
}.

(** Lines 306-309. *)
Definition aggregate_stats (filtered_videos : list Video) : Stats :=
  {| total_videos := Z.of_nat (length filtered_videos);
     total_views := py_sum (v_view_count <$> filtered_videos);
     total_likes := py_sum (v_like_count <$> filtered_videos);
     total_comments := py_sum (v_comment_count <$> filtered_videos) |}.

(** What the main column shows (lines 298-315): one of three notices, or
    the four metrics. *)
Inductive Dashboard :=
| info_no_api_key
| info_no_channels
| warning_no_videos
| metrics (s : Stats).

Definition dashboard (key : string) (chans : list Channel)
    (filtered_videos : list Video) : Dashboard :=
  if String.eqb key "" then info_no_api_key
  else match chans with
       | [] => info_no_channels
       | _ =>
           match filtered_videos with
           | [] => warning_no_videos
           | _ => metrics (aggregate_stats filtered_videos)
           end
       end.

(** ** Sequences of sidebar actions *)

Inductive Click :=
| click_add_folder (new_folder : string) (t : Z)
| click_add_channel (fuel : nat) (new_channel_id : string)
    (pick : option nat) (t : Z).

(** One script run triggered by a click. An exception that leaves the
    handler ends the run; the session keeps what was changed before. *)
Definition click `{Platform Y} (w : World Y) (c : Click) : option (World Y) :=
  match c with
  | click_add_folder new_folder t => Some (add_folder_click new_folder t w)
  | click_add_channel fuel new_channel_id pick t =>
      snd <$> add_channel_click fuel new_channel_id pick t w
  end.

Fixpoint run_clicks `{Platform Y} (cs : list Click) (w : World Y)
  : option (World Y) :=
  match cs with
  | [] => Some w
  | c :: cs =>
      match click w c with
      | Some w => run_clicks cs w
      | None => None
      end
  end.

(** The clock reading, in whole seconds, during the run of a click. *)
Definition click_time (c : Click) : Z :=
  match c with
  | click_add_folder _ t => t
  | click_add_channel _ _ _ t => t
  end.

(** The id both handlers give a folder made at second [t]. *)
Definition folder_stamp (t : Z) : string := "f-" +:+ pretty t.

(** The session at start-up (app.py 29-36), with the key typed in. *)
Definition start {Y} (y : Y) (key : string) : World Y :=
  mk_world y [] key [] [] [] [].

(** ** Reference instances

    Concrete parsers and a scripted platform, used to run the model on
    examples. The parsers cover the texts the examples use: timestamps
    [YYYY-MM-DDTHH:MM:SS+00:00], durations [PT..H..M..S] with an optional
    fraction of up to six digits on the seconds, and unsigned decimal
    integers. *)
Module Ref.

Definition digit (c : ascii) : option Z :=
  let n := nat_of_ascii c in
  if (48 <=? n)%nat && (n <=? 57)%nat then Some (Z.of_nat (n - 48)) else None.

Fixpoint digits (s : string) (acc : Z) : option Z :=
  match s with
  | EmptyString => Some acc
  | String c s => d ← digit c; digits s (acc * 10 + d)%Z
  end.

Definition number (s : string) : option Z :=
  match s with
  | EmptyString => None
  | _ => digits s 0%Z
  end.

Definition int_of_str (s : string) : Result Z :=
  match number s with
  | Some n => inr n
  | None => inl (ValueError ("invalid literal for int() with base 10: '" +:+ s +:+ "'"))
  end.

Definition is_leap (y : Z) : bool :=
  ((y mod 4 =? 0) && negb (y mod 100 =? 0) || (y mod 400 =? 0))%Z.

Definition days_in_month (y m : Z) : Z :=
  if (m =? 2)%Z then (if is_leap y then 29 else 28)%Z
  else if ((m =? 4) || (m =? 6) || (m =? 9) || (m =? 11))%Z then 30%Z
  else 31%Z.

Definition days_before_year (y : Z) : Z :=
  let y1 := (y - 1)%Z in
  (365 * y1 + y1 / 4 - y1 / 100 + y1 / 400)%Z.

Definition days_before_month (y m : Z) : Z :=
  (nth (Z.to_nat (m - 1)) [0; 31; 59; 90; 120; 151; 181; 212; 243; 273; 304; 334] 0
   + (if (2 <? m) && is_leap y then 1 else 0))%Z.

(** Microseconds from 0001-01-01T00:00:00 to the given wall clock. *)
Definition wall_clock (y m d hh mm ss : Z) : Z :=
  ((((days_before_year y + days_before_month y m + (d - 1)) * 24 + hh) * 60 + mm)
     * 60 + ss) * 1000000.

Definition fromisoformat (s : string) : Result datetime :=
  let wall : option Z :=
    if (String.length s =? 25)%nat
       && String.eqb (substring 4 1 s) "-" && String.eqb (substring 7 1 s) "-"
       && String.eqb (substring 10 1 s) "T" && String.eqb (substring 13 1 s) ":"
       && String.eqb (substring 16 1 s) ":" && String.eqb (substring 19 6 s) "+00:00"
    then
      y ← number (substring 0 4 s);
      m ← number (substring 5 2 s);
      d ← number (substring 8 2 s);
      hh ← number (substring 11 2 s);
      mm ← number (substring 14 2 s);
      ss ← number (substring 17 2 s);
      if ((1 <=? y) && (1 <=? m) && (m <=? 12) && (1 <=? d)
          && (d <=? days_in_month y m) && (hh <? 24) && (mm <? 60) && (ss <? 60))%Z
      then Some (wall_clock y m d hh mm ss) else None
    else None in
  match wall with
  | Some us => inr {| dt_wall := us; dt_tzinfo := Some 0%Z |}
  | None => inl (ValueError ("Invalid isoformat string: '" +:+ s +:+ "'"))
  end.

(** The fraction of the seconds field, followed by the final [S]. *)
Definition fraction (s : string) : option Z :=
  let n := String.length s in
  if (2 <=? n)%nat && (n <=? 7)%nat && String.eqb (substring (n - 1) 1 s) "S" then
    f ← number (substring 0 (n - 1) s);
    Some (f * 10 ^ Z.of_nat (7 - n))%Z
  else None.

Fixpoint fields (s : string) (num : option Z) (total : Z) : option Z :=
  match s with
  | EmptyString => match num with None => Some total | Some _ => None end
  | String c s' =>
      match digit c with
      | Some d => fields s' (Some (default 0 num * 10 + d))%Z total
      | None =>
          n ← num;
          if Ascii.eqb c "H" then fields s' None (total + n * 3600000000)%Z
          else if Ascii.eqb c "M" then fields s' None (total + n * 60000000)%Z
          else if Ascii.eqb c "S" then fields s' None (total + n * 1000000)%Z
          else if Ascii.eqb c "." then
            f ← fraction s'; Some (total + n * 1000000 + f)%Z
          else None
      end
  end.

Definition parse_duration (s : string) : Result timedelta :=
  match (if String.prefix "PT" s
         then fields (substring 2 (String.length s - 2) s) None 0%Z
         else None) with
  | Some us => inr us
  | None => inl (ValueError ("Unable to parse duration string '" +:+ s +:+ "'"))
  end.

#[global] Instance lib : PyLib := {
  fromisoformat := fromisoformat;
  parse_duration := parse_duration;
  int_of_str := int_of_str
}.

(** A scripted platform: its state is the table of answers, which no
    request changes; [build] always succeeds. *)
Record Script := {
  on_channels : ChannelsQuery -> Result ChannelListResponse;
  on_search : string -> Result SearchListResponse;
  on_playlistItems : string -> Result PlaylistItemListResponse;
  on_videos : string -> Result VideoListResponse
}.

#[global] Instance scripted : Platform Script := {
  build _ y := (inr tt, y);
  channels_list _ q y := (on_channels y q, y);
  search_list _ q y := (on_search y q, y);
  playlistItems_list _ p y := (on_playlistItems y p, y);
  videos_list _ ids y := (on_videos y ids, y)
}.

End Ref.

(** ** Notions used by the statements *)

Section Notions.
Context {lib : PyLib} {Y : Type} {platform : Platform Y}.

(** [resolves key n identifier w item w']: from world [w] the lookups of
    [fetch_channel_info] for [identifier] reach the channel [item] after
    [n] search fallbacks, leaving world [w']. *)
Inductive resolves (key : string)
  : nat -> string -> World Y -> ChannelItem -> World Y -> Prop :=
| resolves_direct identifier w w1 w2 response item rest :
    get_youtube_service key w = (true, w1) ->
    call_channels key (channels_query identifier) w1 = (inr response, w2) ->
    clr_items response = Some (item :: rest) ->
    resolves key 0 identifier w item w2
| resolves_hop n identifier w w1 w2 w3 response search_response first rest
    snippet channel_id item w' :
    get_youtube_service key w = (true, w1) ->
    call_channels key (channels_query identifier) w1 = (inr response, w2) ->
    truthy_items (clr_items response) = false ->
    call_search key identifier w2 = (inr search_response, w3) ->
    slr_items search_response = Some (first :: rest) ->
    si_snippet first = Some snippet ->
    ss_channelId snippet = Some channel_id ->
    resolves key n channel_id w3 item w' ->
    resolves key (S n) identifier w item w'.

(** The uploads-feed [item] carries [videoId] and a [publishedAt] that,
    parsed and made naive, is not before [one_week_ago]. *)
Definition in_window (one_week_ago : Z) (item : PlaylistItem)
    (videoId : string) : Prop :=
  exists snippet text published_at contentDetails,
    pi_snippet item = Some snippet /\
    ps_publishedAt snippet = Some text /\
    fromisoformat (replace_Z text) = inr published_at /\
    (one_week_ago <= dt_wall (replace_tzinfo_None published_at))%Z /\
    pi_contentDetails item = Some contentDetails /\
    pcd_videoId contentDetails = Some videoId.

(** Where a video of the result comes from: a detail record answered to
    the details request of one of the channels, whose ids are those of
    feed items in the window. *)
Definition fetched_from (one_week_ago : Z) (chans : list Channel)
    (events : list ApiEvent) (v : Video) : Prop :=
  exists channel pl_response kept video_ids vid_response item,
    channel ∈ chans /\
    ev_playlistItems (c_uploads_id channel) (inr pl_response) ∈ events /\
    kept `sublist_of` default [] (plr_items pl_response) /\
    Forall2 (in_window one_week_ago) kept video_ids /\
    ev_videos (String.concat "," video_ids) (inr vid_response) ∈ events /\
    item ∈ default [] (vlr_items vid_response) /\
    make_video channel item = inr v.

End Notions.

(** ** Example data *)

Module Examples.
Import Ref.

Definition thumbs (u : string) : gmap string Thumbnail :=
  {[ "default" := {| th_url := Some u |} ]}.

Definition channel_item (id title uploads : string) : ChannelItem :=
  {| ci_id := Some id;
     ci_snippet :=
       Some {| cs_title := Some title; cs_customUrl := None;
               cs_thumbnails := Some (thumbs ("https://img/" +:+ id)) |};
     ci_contentDetails :=
       Some {| ccd_relatedPlaylists := Some {| rp_uploads := Some uploads |} |} |}.

Definition found (item : ChannelItem) : Result ChannelListResponse :=
  inr {| clr_items := Some [item] |}.

(** A channel lookup without a match has no ['items'] key. *)
Definition nothing : Result ChannelListResponse :=
  inr {| clr_items := None |}.

Definition top_match (channel_id : string) : Result SearchListResponse :=
  inr {| slr_items :=
           Some [ {| si_snippet := Some {| ss_channelId := Some channel_id |} |} ] |}.

Definition no_match : Result SearchListResponse :=
  inr {| slr_items := Some [] |}.

Definition feed_item (published videoId : string) : PlaylistItem :=
  {| pi_snippet := Some {| ps_publishedAt := Some published |};
     pi_contentDetails := Some {| pcd_videoId := Some videoId |} |}.

Definition video_item (id published duration : string) : VideoItem :=
  {| vi_id := Some id;
     vi_snippet :=
       Some {| vs_title := Some ("video " +:+ id);
               vs_thumbnails := Some (thumbs ("https://img/" +:+ id));
               vs_publishedAt := Some published |};
     vi_statistics :=
       Some {| vst_viewCount := Some "100"; vst_likeCount := Some "7";
               vst_commentCount := None |};
     vi_contentDetails := Some {| vcd_duration := Some duration |} |}.

Definition feed (items : list PlaylistItem) : Result PlaylistItemListResponse :=
  inr {| plr_items := Some items |}.

Definition details (items : list VideoItem) : Result VideoListResponse :=
  inr {| vlr_items := Some items |}.

Definition not_found {A} : Result A := inl (HttpError "HttpError 404").

Definition cycle_item : ChannelItem := channel_item "UC1" "Cycle" "UU1".

(** The tracked channel of the examples. *)
Definition cycle : Channel :=
  {| c_id := "UC1"; c_title := "Cycle"; c_handle := "";
     c_thumbnail := "https://img/UC1"; c_uploads_id := "UU1";
     c_folder_id := "f-1700000000" |}.

Definition second : Channel :=
  {| c_id := "UC2"; c_title := "Second"; c_handle := "";
     c_thumbnail := "https://img/UC2"; c_uploads_id := "UU2";
     c_folder_id := "f-1700000000" |}.

Definition boundary : Channel :=
  {| c_id := "UC3"; c_title := "Boundary"; c_handle := "";
     c_thumbnail := "https://img/UC3"; c_uploads_id := "UU3";
     c_folder_id := "f-1700000000" |}.

(** The wall clock 2024-01-11T00:00:00 of the examples' [datetime.now()]. *)
Definition now : Z := wall_clock 2024 1 11 0 0 0.

(** The handle "@cycle" and the id "UC1" name the channel; the name
    "cycle tv" is found by search only. Its feed has uploads of one, six
    and ten days ago; the details of the first two last 45 s and 2 min.
    The feed of "UU2" has one upload of two days ago, lasting 30 s; that
    of "UU3" two recent uploads lasting 59.999 s and 60 s. *)
Definition cycle_script : Script :=
  {| on_channels q :=
       match q with
       | forHandle h => if String.eqb h "@cycle" then found cycle_item else nothing
       | by_id i => if String.eqb i "UC1" then found cycle_item else nothing
       end;
     on_search q := if String.eqb q "cycle tv" then top_match "UC1" else no_match;
     on_playlistItems p :=
       if String.eqb p "UU1" then
         feed [feed_item "2024-01-10T00:00:00Z" "v1";
               feed_item "2024-01-05T00:00:00Z" "v2";
               feed_item "2024-01-01T00:00:00Z" "v3"]
       else if String.eqb p "UU2" then
         feed [feed_item "2024-01-09T00:00:00Z" "w1"]
       else if String.eqb p "UU3" then
         feed [feed_item "2024-01-08T00:00:00Z" "b1";
               feed_item "2024-01-07T00:00:00Z" "b2"]
       else not_found;
     on_videos ids :=
       if String.eqb ids "v1,v2" then
         details [video_item "v1" "2024-01-10T00:00:00Z" "PT45S";
                  video_item "v2" "2024-01-05T00:00:00Z" "PT2M"]
       else if String.eqb ids "w1" then
         details [video_item "w1" "2024-01-09T00:00:00Z" "PT0M30S"]
       else if String.eqb ids "b1,b2" then
         details [video_item "b1" "2024-01-08T00:00:00Z" "PT59.999S";
                  video_item "b2" "2024-01-07T00:00:00Z" "PT60S"]
       else not_found |}.

(** The feed lists "v1" as added one day ago; the detail record of "v1"
    gives a [publishedAt] of forty-one days ago. *)
Definition stale_script : Script :=
  {| on_channels _ := nothing;
     on_search _ := no_match;
     on_playlistItems p :=
       if String.eqb p "UU1" then feed [feed_item "2024-01-10T00:00:00Z" "v1"]
       else not_found;
     on_videos ids :=
       if String.eqb ids "v1" then
         details [video_item "v1" "2023-12-01T00:00:00Z" "PT2M"]
       else not_found |}.

(** The second detail record of "UU1" lacks ['contentDetails']. *)
Definition broken_script : Script :=
  {| on_channels _ := nothing;
     on_search _ := no_match;
     on_playlistItems p :=
       if String.eqb p "UU1" then
         feed [feed_item "2024-01-10T00:00:00Z" "v1";
               feed_item "2024-01-05T00:00:00Z" "v2"]
       else if String.eqb p "UU2" then
         feed [feed_item "2024-01-09T00:00:00Z" "w1"]
       else not_found;
     on_videos ids :=
       if String.eqb ids "v1,v2" then
         details [video_item "v1" "2024-01-10T00:00:00Z" "PT45S";
                  {| vi_id := Some "v2"; vi_snippet := None;
                     vi_statistics := None; vi_contentDetails := None |}]
       else if String.eqb ids "w1" then
         details [video_item "w1" "2024-01-09T00:00:00Z" "PT0M30S"]
       else not_found |}.

(** No channel can be listed by id, and the search always offers "UCx". *)
Definition loop_script : Script :=
  {| on_channels _ := nothing;
     on_search _ := top_match "UCx";
     on_playlistItems _ := not_found;
     on_videos _ := not_found |}.

(** The search for the name offers "UCold", which cannot be listed; the
    search for "UCold" offers "UC1", which can. *)
Definition two_hop_script : Script :=
  {| on_channels q :=
       match q with
       | by_id i => if String.eqb i "UC1" then found cycle_item else nothing
       | forHandle _ => nothing
       end;
     on_search q :=
       if String.eqb q "cycle tv" then top_match "UCold"
       else if String.eqb q "UCold" then top_match "UC1"
       else no_match;
     on_playlistItems _ := not_found;
     on_videos _ := not_found |}.

(** A session on [cycle_script] that already tracks "UC1". *)
Definition tracking : World Script :=
  mk_world cycle_script [] "key" [cycle]
           [ {| f_id := "f-1700000000"; f_name := "기본 폴더" |} ] [] [].

(** A session on [cycle_script] with two folders and no channel. *)
Definition two_folders : World Script :=
  mk_world cycle_script [] "key" []
           [ {| f_id := "f-1700000100"; f_name := "Road" |};
             {| f_id := "f-1700000200"; f_name := "Track" |} ] [] [].

(** The videos the aggregator returns for the two channels on
    [cycle_script]: "v1" and "v2" of "UC1", "w1" of "UC2". *)
Definition sample_videos : list Video :=
  Eval vm_compute in
    (get_recent_videos [cycle; second] "key" now (start cycle_script "key")).1.

End Examples.

(** ** Sidebar navigation and the main column (app.py 220-265) *)

(** [st.selectbox(label, [first] + rest)]: the option at the position
    the operator chose, the first one by default. *)
Definition selectbox (first : string) (rest : list string) (pick : nat)
  : string :=
  nth pick (first :: rest) first.

(** Lines 228-234 and 248-253: the id behind the chosen name, unless the
    name is the "all" entry. *)
Definition name_to_id (all : string) (d : Dict) (name : string)
  : option string :=
  if String.eqb name all then None else first_key name d.

(** Line 224. *)
Definition folder_map (fs : list Folder) : Dict :=
  dict_of ((fun f => (f_id f, f_name f)) <$> fs).

(** Lines 225-226. *)
Definition selected_folder_name (fs : list Folder) (pick : nat) : string :=
  selectbox "전체 보기" (folder_map fs).*2 pick.

(** Lines 228-234. *)
Definition nav_folder_id (fs : list Folder) (pick : nat) : option string :=
  name_to_id "전체 보기" (folder_map fs) (selected_folder_name fs pick).

(** Lines 238-241. *)
Definition filtered_channels_for_select (chans : list Channel)
    (selected_folder_id : option string) : list Channel :=
  match when_set selected_folder_id with
  | Some fid => List.filter (fun c => String.eqb (c_folder_id c) fid) chans
  | None => chans
  end.

(** Line 243. *)
Definition channel_map (chans : list Channel)
    (selected_folder_id : option string) : Dict :=
  dict_of ((fun c => (c_id c, c_title c))
             <$> filtered_channels_for_select chans selected_folder_id).

(** Lines 244-246. *)
Definition selected_channel_name (chans : list Channel)
    (selected_folder_id : option string) (pick : nat) : string :=
  selectbox "전체 채널" (channel_map chans selected_folder_id).*2 pick.

(** Lines 248-253. *)
Definition nav_channel_id (chans : list Channel)
    (selected_folder_id : option string) (pick : nat) : option string :=
  name_to_id "전체 채널" (channel_map chans selected_folder_id)
             (selected_channel_name chans selected_folder_id pick).

Section Main.
Context {lib : PyLib} {Y : Type} {platform : Platform Y}.

(** Lines 262-265: the videos of the session, fetched only with a key
    and at least one channel. *)
Definition session_videos (now : Z) (w : World Y) : list Video * World Y :=
  if negb (String.eqb (api_key w) "") then
    match channels w with
    | [] => ([], w)
    | _ => get_recent_videos (channels w) (api_key w) now w
    end
  else ([], w).

(** One run of the script without a click: the two select boxes of the
    sidebar, the videos, the filters, and what the main column shows
    (lines 224-253 and 262-315). *)
Definition render (folder_pick channel_pick : nat) (type_filter : TypeFilter)
    (now : Z) (w : World Y) : Dashboard * World Y :=
  let selected_folder_id := nav_folder_id (folders w) folder_pick in
  let selected_channel_id :=
    nav_channel_id (channels w) selected_folder_id channel_pick in
  let '(videos, w') := session_videos now w in
  (dashboard (api_key w') (channels w')
     (filter_videos videos (channels w') selected_channel_id selected_folder_id
                    type_filter),
   w').

End Main.



(** A video of one of the channels [chans]: it carries the id and the
    title of that channel, and its link is the watch address of its own
    id. *)
Definition belongs_to (chans : list Channel) (v : Video) : Prop :=
  (exists channel,
     channel ∈ chans /\
     v_channel_id v = c_id channel /\
     v_channel_title v = c_title channel)
  /\ v_url v = "https://www.youtube.com/watch?v=" +:+ v_id v.

(** Every list in the cache holds only videos of the channels [chans]. *)
Definition cache_within (chans : list Channel)
    (cache : gmap string CacheEntry) : Prop :=
  forall key e, cache !! key = Some e -> Forall (belongs_to chans) (ce_value e).

(** ** What a call of the resolver may leave behind *)

Section ResolverEffect.
Context {Y : Type}.

(** The outcome [x] of a call that started in world [w] with clock
    reading [t]: the channels and the key are as before; the folders are
    as before or, if there were none, the one default folder; [None]
    comes with exactly one message, which is not a success; a channel or
    an exception comes without a message; a returned channel has a new id
    and the id of an existing folder. With [handled], the exception is
    not an [HttpError]. *)
Definition resolver_post (handled : bool) (t : Z) (w : World Y)
    (x : Result (option Channel) * World Y) : Prop :=
  channels x.2 = channels w /\
  api_key x.2 = api_key w /\
  (folders x.2 = folders w
   \/ (folders w = [] /\
       folders x.2 = [ {| f_id := folder_stamp t; f_name := "기본 폴더" |} ])) /\
  match x.1 with
  | inl e => ui x.2 = ui w /\ (handled = true -> forall m, e <> HttpError m)
  | inr None => exists m, ui x.2 = ui w ++ [m] /\ forall s, m <> st_success s
  | inr (Some c) =>
      ui x.2 = ui w /\
      (c_id c ∉ (c_id <$> channels w)) /\
      (c_folder_id c ∈ (f_id <$> folders x.2))
  end.

(** What one click may do to the session: the key stays, the folders
    are extended at the end, and at most one channel is appended, with a
    new id and the id of an existing folder. *)
Definition click_post (w w' : World Y) : Prop :=
  api_key w' = api_key w /\
  folders w `prefix_of` folders w' /\
  (channels w' = channels w
   \/ exists ch,
        channels w' = channels w ++ [ch] /\
        (c_id ch ∉ (c_id <$> channels w)) /\
        (c_folder_id ch ∈ (f_id <$> folders w'))).

End ResolverEffect.

Module MoreExamples.
Import Ref.

(** A channel item without ['contentDetails']. *)
Definition bare_item : ChannelItem :=
  {| ci_id := Some "UC9";
     ci_snippet :=
       Some {| cs_title := Some "Bare"; cs_customUrl := None;
               cs_thumbnails := Some (Examples.thumbs "https://img/UC9") |};
     ci_contentDetails := None |}.

(** The handle "@bare" gives [bare_item]; every other lookup, and every
    search, fails with an [HttpError]. *)
Definition bare_script : Script :=
  {| on_channels q :=
       match q with
       | forHandle h =>
           if String.eqb h "@bare" then Examples.found bare_item
           else Examples.not_found
       | by_id _ => Examples.not_found
       end;
     on_search _ := Examples.not_found;
     on_playlistItems _ := Examples.not_found;
     on_videos _ := Examples.not_found |}.

(** A session on [cycle_script] with three folders, two of them named
    "Road", and no channel. *)
Definition same_name_folders : World Script :=
  mk_world Examples.cycle_script [] "key" []
           [ {| f_id := "f-1700000100"; f_name := "Road" |};
             {| f_id := "f-1700000200"; f_name := "Track" |};
             {| f_id := "f-1700000300"; f_name := "Road" |} ] [] [].

(** A platform whose service cannot be built. *)
Record Offline := { offline_reason : string }.

#[global] Instance offline : Platform Offline := {
  build _ y := (inl (OtherError (offline_reason y)), y);
  channels_list _ _ y := (inl (OtherError (offline_reason y)), y);
  search_list _ _ y := (inl (OtherError (offline_reason y)), y);
  playlistItems_list _ _ y := (inl (OtherError (offline_reason y)), y);
  videos_list _ _ y := (inl (OtherError (offline_reason y)), y)
}.

End MoreExamples.

(** * Properties *)

Lemma rbind_inr {A B} (r : Result A) (k : A -> Result B) (b : B) :
  rbind r k = inr b -> exists a, r = inr a /\ k a = inr b.
Proof. destruct r as [e|a]; [done|]. intros H. by exists a. Qed.

(** Peel the successful steps off a chain of [<~]. *)
Ltac inv_rbind H :=
  repeat (apply rbind_inr in H as (? & ? & H); cbn beta in H).

(** ** Filter engine *)

Lemma filter_reflect {A} (P : A -> Prop) `{!forall x, Decision (P x)}
    (f : A -> bool) (l : list A) :
  (forall x, f x = true <-> P x) -> List.filter f l = filter P l.
Proof.
  intros Hf. induction l as [|x l IH]; [done|].
  cbn [List.filter]. rewrite filter_cons, IH.
  destruct (f x) eqn:Hx, (decide (P x)) as [HP|HP]; try done.
  - destruct HP. by apply Hf.
  - apply Hf in HP. congruence.
Qed.

Lemma truthy_Some (s : string) : s <> "" -> truthy (Some s) = true.
Proof.
  intros Hs. unfold truthy. destruct (String.eqb_spec s ""); [done|reflexivity].
Qed.

Lemma when_set_Some (s : string) : s <> "" -> when_set (Some s) = Some s.
Proof. intros Hs. unfold when_set. by rewrite truthy_Some. Qed.

Lemma when_set_None (o : option string) : truthy o = false -> when_set o = None.
Proof. intros Ho. unfold when_set. by rewrite Ho. Qed.

Lemma existsb_eqb_elem_of (x : string) (l : list string) :
  existsb (String.eqb x) l = true <-> x ∈ l.
Proof.
  rewrite existsb_exists. split.
  - intros (y & Hin & Heq). apply String.eqb_eq in Heq as ->.
    by apply list_elem_of_In.
  - intros Hin. exists x. split; [by apply list_elem_of_In|apply String.eqb_refl].
Qed.

(** C1. A selected channel (a non-empty id) restricts the videos to those
    of that channel, whatever the folder selector holds; without a
    selected channel, a selected folder restricts them to the videos whose
    channel is one of the channels of that folder; without either, the
    videos are left as they are. *)
Theorem C1_hierarchical_filter (videos : list Video) (chans : list Channel)
    (selected_channel_id selected_folder_id : option string) :
  (forall cid, selected_channel_id = Some cid -> cid <> "" ->
     hierarchical_filter videos chans selected_channel_id selected_folder_id
     = filter (fun v => v_channel_id v = cid) videos)
  /\ (truthy selected_channel_id = false ->
      forall fid, selected_folder_id = Some fid -> fid <> "" ->
        hierarchical_filter videos chans selected_channel_id selected_folder_id
        = filter (fun v => v_channel_id v ∈
                    (c_id <$> filter (fun c => c_folder_id c = fid) chans))
                 videos)
  /\ (truthy selected_channel_id = false -> truthy selected_folder_id = false ->
      hierarchical_filter videos chans selected_channel_id selected_folder_id
      = videos).
Proof.
  unfold hierarchical_filter. repeat split.
  - intros cid -> Hcid. rewrite when_set_Some by done.
    apply filter_reflect. intros v. apply String.eqb_eq.
  - intros Hch fid -> Hfid.
    rewrite (when_set_None _ Hch), when_set_Some by done.
    rewrite (filter_reflect (fun c => c_folder_id c = fid))
      by (intros c; apply String.eqb_eq).
    apply filter_reflect. intros v. apply existsb_eqb_elem_of.
  - intros Hch Hfo. by rewrite (when_set_None _ Hch), (when_set_None _ Hfo).
Qed.

Lemma C1_hierarchical_filter_witness :
  let chans := [Examples.cycle; Examples.second] in
  hierarchical_filter Examples.sample_videos chans (Some "UC1") (Some "f-1700000000")
  = filter (fun v => v_channel_id v = "UC1") Examples.sample_videos
  /\ hierarchical_filter Examples.sample_videos chans None (Some "f-1700000000")
     = filter (fun v => v_channel_id v ∈
                 (c_id <$> filter (fun c => c_folder_id c = "f-1700000000") chans))
              Examples.sample_videos
  /\ hierarchical_filter Examples.sample_videos chans None None
     = Examples.sample_videos.
Proof.
  intros chans.
  pose proof (C1_hierarchical_filter Examples.sample_videos chans
                (Some "UC1") (Some "f-1700000000")) as (H1 & _ & _).
  pose proof (C1_hierarchical_filter Examples.sample_videos chans
                None (Some "f-1700000000")) as (_ & H2 & _).
  pose proof (C1_hierarchical_filter Examples.sample_videos chans
                None None) as (_ & _ & H3).
  split; [|split].
  - apply H1; [reflexivity|discriminate].
  - apply H2; [reflexivity|reflexivity|discriminate].
  - apply H3; reflexivity.
Defined.

(** The format filter and the hierarchical filter only drop videos. *)
Lemma filter_videos_sublist videos chans sc sf tf :
  filter_videos videos chans sc sf tf `sublist_of` videos.
Proof.
  unfold filter_videos, format_filter, hierarchical_filter.
  assert (forall (f : Video -> bool) l, List.filter f l `sublist_of` l) as Hsub.
  { intros f l. induction l as [|x l IH]; cbn; [done|].
    destruct (f x); by constructor. }
  destruct tf, (when_set sc), (when_set sf);
    repeat (etrans; [apply Hsub|]); done.
Qed.

(** C9. The statistics of the empty video list are all zero, and so are
    those of whatever the filters select from an empty video set; the
    computation is total, so it cannot fail. *)
Theorem C9_aggregate_stats_empty :
  aggregate_stats [] = mk_stats 0 0 0 0
  /\ forall chans sc sf tf,
       aggregate_stats (filter_videos [] chans sc sf tf) = mk_stats 0 0 0 0.
Proof.
  split; [reflexivity|]. intros chans sc sf tf.
  pose proof (filter_videos_sublist [] chans sc sf tf) as Hsub.
  apply sublist_nil_r in Hsub. by rewrite Hsub.
Qed.

(** With nothing left after the filters the dashboard shows a notice, not
    the metrics. *)
Lemma dashboard_empty key chans :
  dashboard key chans [] = info_no_api_key
  \/ dashboard key chans [] = info_no_channels
  \/ dashboard key chans [] = warning_no_videos.
Proof.
  unfold dashboard. destruct (String.eqb key ""); [by left|].
  destruct chans; [by right; left|by right; right].
Qed.

(** ** Video aggregator *)

Section Aggregator.
Context {lib : PyLib} {Y : Type} {platform : Platform Y}.

Implicit Types (w : World Y) (v : Video) (channel : Channel).

(** With an empty channel list the body returns the empty list and
    leaves the world as it was: no service is built, no request is
    executed, nothing is shown or printed. *)
Lemma get_recent_videos_no_channels (key : string) (now : Z) w :
  get_recent_videos [] key now w = ([], w).
Proof. reflexivity. Qed.

Lemma replay_spec (messages : list UiMsg) w :
  replay messages w
  = mk_world (yt w) (api_log w) (api_key w) (channels w) (folders w)
             (ui w ++ messages) (stdout w).
Proof.
  unfold replay. revert w. induction messages as [|m messages IH]; intros w.
  - cbn. rewrite app_nil_r. by destruct w.
  - cbn [foldl]. rewrite IH. cbn. by rewrite <- app_assoc.
Qed.

(** C10 (as amended). Called with an empty channel list, the aggregator
    executes no request and leaves the remote platform alone. It returns
    the empty list when the cache has no live entry for the API key; when
    it has one, stored by an earlier call with the same key (whatever the
    channels of that call were), it returns the list of that entry. *)
Theorem C10_empty_list_no_request (cache : gmap string CacheEntry)
    (clock stored_at : Q) (key : string) (now : Z) w :
  let r := cached_get_recent_videos cache clock stored_at [] key now w in
  api_log r.2 = api_log w
  /\ yt r.2 = yt w
  /\ match cache_lookup cache key clock with
     | None => r.1.1 = []
     | Some e => r.1.1 = ce_value e
     end.
Proof.
  unfold cached_get_recent_videos.
  destruct (cache_lookup cache key clock) as [e|].
  - cbn [fst snd]. by rewrite replay_spec.
  - by rewrite get_recent_videos_no_channels.
Qed.

(** *** What a request changes *)

Lemma call_playlistItems_log key p w r w' :
  call_playlistItems key p w = (r, w') ->
  api_log w' = api_log w ++ [ev_playlistItems p r].
Proof.
  unfold call_playlistItems. destruct (playlistItems_list _ _ _) as [r0 y].
  by intros [= <- <-].
Qed.

Lemma call_videos_log key ids w r w' :
  call_videos key ids w = (r, w') ->
  api_log w' = api_log w ++ [ev_videos ids r].
Proof.
  unfold call_videos. destruct (videos_list _ _ _) as [r0 y].
  by intros [= <- <-].
Qed.

(** *** The window over the uploads feed *)

Lemma window_step_spec owa ids item ids' :
  window_step owa ids item = inr ids' ->
  ids' = ids \/ exists videoId, ids' = ids ++ [videoId] /\ in_window owa item videoId.
Proof.
  unfold window_step, in_window.
  destruct (pi_snippet item) as [snippet|] eqn:Hs; [|done]. cbn.
  destruct (ps_publishedAt snippet) as [text|] eqn:Ht; [|done]. cbn.
  destruct (fromisoformat (replace_Z text)) as [?|published_at] eqn:Hp; [done|]. cbn.
  destruct (owa <=? _)%Z eqn:Hle; [|intros [= <-]; by left].
  destruct (pi_contentDetails item) as [cd|] eqn:Hcd; [|done]. cbn.
  destruct (pcd_videoId cd) as [videoId|] eqn:Hid; [|done]. cbn.
  intros [= <-]. right. exists videoId. split; [done|].
  exists snippet, text, published_at, cd. apply Z.leb_le in Hle.
  split_and!; done.
Qed.

Lemma window_ids_spec owa items ids ids' :
  window_ids owa items ids = inr ids' ->
  exists kept selected,
    ids' = ids ++ selected /\ kept `sublist_of` items /\
    Forall2 (in_window owa) kept selected.
Proof.
  revert ids. induction items as [|item items IH]; intros ids; cbn.
  - intros [= <-]. exists [], []. by rewrite app_nil_r.
  - destruct (window_step owa ids item) as [?|ids1] eqn:Hstep; [done|]. cbn.
    intros (kept & selected & -> & Hsub & Hall)%IH.
    apply window_step_spec in Hstep as [->|(videoId & -> & Hin)].
    + exists kept, selected. split; [done|]. split; [by constructor|done].
    + exists (item :: kept), (videoId :: selected).
      rewrite <- app_assoc. split; [done|]. split; by constructor.
Qed.

(** *** The detail records *)

Lemma Qltb_lt (x y : Q) : Qltb x y = true <-> (x < y)%Q.
Proof.
  unfold Qltb. rewrite negb_true_iff, <- not_true_iff_false, Qle_bool_iff.
  split; [apply Qnot_le_lt|apply Qlt_not_le].
Qed.

Lemma make_video_inv channel item v :
  make_video channel item = inr v ->
  v_channel_id v = c_id channel /\
  v_is_short v = Qltb (v_duration_sec v) 60.
Proof.
  unfold make_video. intros H. inv_rbind H. by injection H as <-.
Qed.

(** [append_videos] appends the videos of the records before the first
    one that raises, in order, and stops there. *)
Lemma append_videos_spec channel items acc r acc' :
  append_videos channel items acc = (r, acc') ->
  exists made,
    acc' = acc ++ made /\
    Forall2 (fun item v => make_video channel item = inr v)
            (take (length made) items) made /\
    match r with
    | inr _ => length made = length items
    | inl e => exists item, items !! length made = Some item /\
                            make_video channel item = inl e
    end.
Proof.
  revert acc. induction items as [|item items IH]; intros acc; cbn.
  - intros [= <- <-]. exists []. by rewrite app_nil_r.
  - destruct (make_video channel item) as [e|v] eqn:Hv.
    + intros [= <- <-]. exists []. rewrite app_nil_r. repeat split; [constructor|].
      by exists item.
    + intros (made & -> & Hall & Hr)%IH. exists (v :: made).
      rewrite <- app_assoc. split; [done|]. split; [by constructor|].
      destruct r; cbn; [done|by f_equal].
Qed.

Lemma append_videos_acc channel items acc :
  append_videos channel items acc
  = ((append_videos channel items []).1,
     acc ++ (append_videos channel items []).2).
Proof.
  revert acc. induction items as [|item items IH]; intros acc; cbn.
  - by rewrite app_nil_r.
  - destruct (make_video channel item) as [e|v]; cbn.
    + by rewrite app_nil_r.
    + rewrite (IH (acc ++ [v])), (IH [v]). cbn. by rewrite <- app_assoc.
Qed.

(** *** One channel *)

Lemma fetch_channel_videos_acc key owa channel acc w :
  fetch_channel_videos key owa channel acc w
  = let '(r, made, w') := fetch_channel_videos key owa channel [] w in
    (r, acc ++ made, w').
Proof.
  unfold fetch_channel_videos.
  destruct (call_playlistItems _ _ _) as [[e|pl_response] w1];
    [by rewrite app_nil_r|].
  destruct (window_ids _ _ _) as [e|[|videoId video_ids]];
    [by rewrite app_nil_r..|].
  destruct (call_videos _ _ _) as [[e|vid_response] w2];
    [by rewrite app_nil_r|].
  rewrite append_videos_acc.
  by destruct (append_videos channel _ []) as [r made].
Qed.

Lemma channel_turn_acc key owa acc w channel :
  channel_turn key owa (acc, w) channel
  = (acc ++ (channel_turn key owa ([], w) channel).1,
     (channel_turn key owa ([], w) channel).2).
Proof.
  unfold channel_turn. cbn [fst snd]. rewrite fetch_channel_videos_acc.
  by destruct (fetch_channel_videos key owa channel [] w) as [[[e|?] made] w'].
Qed.

Lemma Forall2_made {A B} (P : A -> B -> Prop) (l : list A) (made : list B) :
  Forall2 P l made -> Forall (fun b => exists a, a ∈ l /\ P a b) made.
Proof.
  induction 1 as [|a b l made HP _ IH]; constructor.
  - exists a. split; [left|done].
  - eapply Forall_impl; [exact IH|]. intros b' (a' & Hin & HP').
    exists a'. split; [by right|done].
Qed.

Lemma fetched_from_mono owa chans chans' events events' v :
  chans ⊆ chans' -> events ⊆ events' ->
  fetched_from owa chans events v -> fetched_from owa chans' events' v.
Proof.
  intros Hc He
    (channel & pl & kept & ids & vr & item & H1 & H2 & H3 & H4 & H5 & H6 & H7).
  exists channel, pl, kept, ids, vr, item.
  split_and!; [by apply Hc|by apply He|done|done|by apply He|done|done].
Qed.

Lemma fetch_channel_videos_spec key owa channel acc w r acc' w' :
  fetch_channel_videos key owa channel acc w = (r, acc', w') ->
  exists made new,
    acc' = acc ++ made /\ api_log w' = api_log w ++ new /\
    Forall (fetched_from owa [channel] new) made.
Proof.
  unfold fetch_channel_videos.
  destruct (call_playlistItems _ _ _) as [[e|pl_response] w1] eqn:Hpl;
    apply call_playlistItems_log in Hpl.
  { intros [= <- <- <-]. exists [], [ev_playlistItems (c_uploads_id channel) (inl e)].
    by rewrite app_nil_r. }
  destruct (window_ids _ _ _) as [e|video_ids] eqn:Hwin.
  { intros [= <- <- <-]. eexists [], _. by rewrite app_nil_r. }
  apply window_ids_spec in Hwin as (kept & selected & -> & Hsub & Hkept).
  cbn [app]. destruct selected as [|videoId selected].
  { intros [= <- <- <-]. eexists [], _. by rewrite app_nil_r. }
  destruct (call_videos _ _ _) as [[e|vid_response] w2] eqn:Hvid;
    apply call_videos_log in Hvid; rewrite Hpl, <- app_assoc in Hvid.
  { intros [= <- <- <-]. eexists [], _. by rewrite app_nil_r. }
  destruct (append_videos _ _ _) as [r0 all_videos] eqn:Happ.
  intros [= <- <- <-].
  apply append_videos_spec in Happ as (made & -> & Hmade & _).
  eexists made, _. split; [done|]. split; [exact Hvid|].
  apply Forall2_made in Hmade. eapply Forall_impl; [exact Hmade|].
  intros v (item & Hitem & Hv).
  exists channel, pl_response, kept, (videoId :: selected), vid_response, item.
  split_and!; try done.
  - apply list_elem_of_singleton. done.
  - set_solver.
  - set_solver.
  - by eapply subseteq_take.
Qed.

(** When the body of the [try] raises, either nothing was appended, or
    the details had arrived and the videos appended are those of the
    records before the one that raised. *)
Lemma fetch_channel_videos_failure key owa channel w e made w' :
  fetch_channel_videos key owa channel [] w = (inl e, made, w') ->
  made = []
  \/ exists ids vid_response item,
       ev_videos ids (inr vid_response) ∈ api_log w' /\
       Forall2 (fun item v => make_video channel item = inr v)
               (take (length made) (default [] (vlr_items vid_response))) made /\
       default [] (vlr_items vid_response) !! length made = Some item /\
       make_video channel item = inl e.
Proof.
  unfold fetch_channel_videos.
  destruct (call_playlistItems _ _ _) as [[e0|pl_response] w1];
    [intros [= _ <- _]; by left|].
  destruct (window_ids _ _ _) as [e0|[|videoId video_ids]];
    [intros [= _ <- _]; by left|done|].
  destruct (call_videos _ _ _) as [[e0|vid_response] w2] eqn:Hvid;
    [intros [= _ <- _]; by left|].
  apply call_videos_log in Hvid.
  destruct (append_videos _ _ _) as [r all_videos] eqn:Happ.
  intros [= -> -> ->].
  apply append_videos_spec in Happ as (made' & -> & Hmade & item & Hitem & He).
  right. exists (String.concat "," (videoId :: video_ids)), vid_response, item.
  cbn [app]. split_and!; try done.
  rewrite Hvid. apply elem_of_app. right. left.
Qed.

Lemma channel_turn_spec key owa channel acc w :
  exists made new,
    (channel_turn key owa (acc, w) channel).1 = acc ++ made /\
    api_log (channel_turn key owa (acc, w) channel).2 = api_log w ++ new /\
    Forall (fetched_from owa [channel] new) made.
Proof.
  unfold channel_turn. cbn [fst snd].
  destruct (fetch_channel_videos key owa channel acc w) as [[r acc'] w'] eqn:Hf.
  apply fetch_channel_videos_spec in Hf as (made & new & -> & Hlog & Hall).
  exists made, new. by destruct r.
Qed.

(** *** The loop *)

Lemma channel_loop_app key owa l1 l2 st :
  channel_loop key owa (l1 ++ l2) st
  = channel_loop key owa l2 (channel_loop key owa l1 st).
Proof. apply foldl_app. Qed.

Lemma channel_loop_acc key owa chans acc w :
  channel_loop key owa chans (acc, w)
  = (acc ++ (channel_loop key owa chans ([], w)).1,
     (channel_loop key owa chans ([], w)).2).
Proof.
  revert acc w. induction chans as [|channel chans IH]; intros acc w.
  - cbn. by rewrite app_nil_r.
  - unfold channel_loop in *. cbn [foldl].
    rewrite channel_turn_acc, IH.
    destruct (channel_turn key owa ([], w) channel) as [made w'] eqn:Hturn.
    cbn [fst snd]. rewrite (IH made). cbn [fst snd]. by rewrite app_assoc.
Qed.

Lemma channel_loop_spec key owa chans acc w :
  exists made new,
    (channel_loop key owa chans (acc, w)).1 = acc ++ made /\
    api_log (channel_loop key owa chans (acc, w)).2 = api_log w ++ new /\
    Forall (fetched_from owa chans new) made.
Proof.
  revert acc w. induction chans as [|channel chans IH]; intros acc w.
  - exists [], []. cbn. by rewrite !app_nil_r.
  - unfold channel_loop in *. cbn [foldl].
    destruct (channel_turn_spec key owa channel acc w)
      as (made1 & new1 & Hacc1 & Hlog1 & Hall1).
    destruct (channel_turn key owa (acc, w) channel) as [acc1 w1].
    cbn [fst snd] in *. subst acc1.
    destruct (IH (acc ++ made1) w1) as (made2 & new2 & -> & -> & Hall2).
    exists (made1 ++ made2), (new1 ++ new2).
    rewrite Hlog1, <- !app_assoc. split; [done|]. split; [done|].
    apply Forall_app. split.
    + eapply Forall_impl; [exact Hall1|]. intros v. apply fetched_from_mono.
      * intros c ->%list_elem_of_singleton. left.
      * intros ev Hev. apply elem_of_app. by left.
    + eapply Forall_impl; [exact Hall2|]. intros v. apply fetched_from_mono.
      * intros c Hc. by right.
      * intros ev Hev. apply elem_of_app. by right.
Qed.

Lemma get_youtube_service_log key w b w' :
  get_youtube_service key w = (b, w') -> api_log w' = api_log w.
Proof.
  unfold get_youtube_service.
  destruct (build key (yt w)) as [[e|?] y]; by intros [= <- <-].
Qed.

(** Every video of the result is accounted for by the requests the call
    has executed. *)
Lemma get_recent_videos_fetched chans key now w :
  exists new,
    api_log (get_recent_videos chans key now w).2 = api_log w ++ new /\
    Forall (fetched_from (now - timedelta_days 7) chans new)
           (get_recent_videos chans key now w).1.
Proof.
  unfold get_recent_videos. destruct chans as [|channel chans].
  { exists []. by rewrite app_nil_r. }
  destruct (get_youtube_service key w) as [[|] w0] eqn:Hservice;
    apply get_youtube_service_log in Hservice.
  - destruct (channel_loop_spec key (now - timedelta_days 7) (channel :: chans) [] w0)
      as (made & new & Hacc & Hlog & Hall).
    exists new. rewrite Hacc, Hlog, Hservice. done.
  - exists []. cbn. by rewrite app_nil_r.
Qed.

(** C2 (as amended). The window is applied to the uploads feed: every
    video of the result is built from a detail record answered to a
    details request of this call, made for one of the channels, and the
    ids of that request are the video ids of items of that channel's feed
    whose [publishedAt], made naive, is not before now - 7 days; older
    feed items are left out of the request. The video's own
    [published_at] is the detail record's, and it is within the window
    when its text is that of such a feed item. *)
Theorem C2_window_on_feed_items chans key now w :
  let one_week_ago := (now - timedelta_days 7)%Z in
  (exists new,
     api_log (get_recent_videos chans key now w).2 = api_log w ++ new /\
     forall v, v ∈ (get_recent_videos chans key now w).1 ->
       fetched_from one_week_ago chans new v)
  /\ (forall channel item v feed_item videoId snippet text vsnippet,
       make_video channel item = inr v ->
       in_window one_week_ago feed_item videoId ->
       pi_snippet feed_item = Some snippet ->
       ps_publishedAt snippet = Some text ->
       vi_snippet item = Some vsnippet ->
       vs_publishedAt vsnippet = Some text ->
       (one_week_ago <= dt_wall (replace_tzinfo_None (v_published_at v)))%Z).
Proof.
  intros owa. split.
  - destruct (get_recent_videos_fetched chans key now w) as (new & Hlog & Hall).
    exists new. split; [done|]. by apply Forall_forall.
  - intros channel item v feed_item videoId snippet text vsnippet Hv Hwin
      Hs Ht Hvs Hvt.
    destruct Hwin as (snippet' & text' & published_at & cd & Hs' & Ht' & Hparse & Hle & _).
    assert (snippet' = snippet) as -> by congruence.
    assert (text' = text) as -> by congruence.
    unfold make_video in Hv. inv_rbind Hv. injection Hv as <-. cbn.
    unfold getitem in *. rewrite Hvs in *. simplify_eq/=.
    rewrite Hvt in *. simplify_eq/=.
    match goal with
    | H : fromisoformat (replace_Z _) = inr ?d |- context [dt_wall ?d] =>
        assert (d = published_at) as -> by congruence
    end.
    exact Hle.
Qed.

(** C3. Every video of the result is short exactly when its duration in
    seconds is below 60: one of 59.999 s is short and one of 60 s is not. *)
Theorem C3_is_short chans key now w v :
  v ∈ (get_recent_videos chans key now w).1 ->
  (v_is_short v = true <-> (v_duration_sec v < 60)%Q)
  /\ ((v_duration_sec v == 59999 # 1000)%Q -> v_is_short v = true)
  /\ ((v_duration_sec v == 60)%Q -> v_is_short v = false).
Proof.
  intros Hv.
  destruct (get_recent_videos_fetched chans key now w) as (new & _ & Hall).
  rewrite Forall_forall in Hall.
  destruct (Hall v Hv) as (channel & _ & _ & _ & _ & item & _ & _ & _ & _ & _ & _ & Hmake).
  apply make_video_inv in Hmake as [_ ->]. split; [apply Qltb_lt|]. split.
  - intros Heq. apply Qltb_lt. by rewrite Heq.
  - intros Heq. apply not_true_iff_false. intros Hlt%Qltb_lt.
    rewrite Heq in Hlt. by apply Qlt_irrefl in Hlt.
Qed.

(** C7 (as amended). An exception raised while one channel is processed
    stays in that turn of the loop: the result is what the channels
    before it gave, then what this channel had appended before the
    exception, then what the loop gives for the channels after it; the
    exception is printed, not raised, and the videos of the channel's
    own part all carry its id. That part is empty unless the details had
    arrived, and then it holds the videos of the detail records before
    the one that raised. *)
Theorem C7_error_isolation key now (before after : list Channel) channel w w0 :
  get_youtube_service key w = (true, w0) ->
  let one_week_ago := (now - timedelta_days 7)%Z in
  let s1 := channel_loop key one_week_ago before ([], w0) in
  let sc := channel_turn key one_week_ago ([], s1.2) channel in
  let s2 := channel_loop key one_week_ago after ([], sc.2) in
  get_recent_videos (before ++ channel :: after) key now w
  = (s1.1 ++ sc.1 ++ s2.1, s2.2)
  /\ Forall (fun v => v_channel_id v = c_id channel) sc.1
  /\ (forall e made w',
        fetch_channel_videos key one_week_ago channel [] s1.2 = (inl e, made, w') ->
        sc = (made,
              print ("Error fetching " +:+ c_title channel +:+ ": " +:+ str_exn e) w')
        /\ (made = []
            \/ exists ids vid_response item,
                 ev_videos ids (inr vid_response) ∈ api_log w' /\
                 Forall2 (fun item v => make_video channel item = inr v)
                         (take (length made) (default [] (vlr_items vid_response)))
                         made /\
                 default [] (vlr_items vid_response) !! length made = Some item /\
                 make_video channel item = inl e)).
Proof.
  intros Hservice owa s1 sc s2. split; [|split].
  - unfold get_recent_videos. fold owa.
    destruct (before ++ channel :: after) as [|c0 l0] eqn:Hl; [by destruct before|].
    rewrite <- Hl, Hservice, channel_loop_app.
    subst s2 sc s1.
    destruct (channel_loop key owa before ([], w0)) as [acc1 w1]. cbn [fst snd].
    change (channel_loop key owa (channel :: after) (acc1, w1))
      with (channel_loop key owa after (channel_turn key owa (acc1, w1) channel)).
    rewrite channel_turn_acc.
    destruct (channel_turn key owa ([], w1) channel) as [accc wc]. cbn [fst snd].
    rewrite channel_loop_acc. by rewrite app_assoc.
  - subst sc.
    destruct (channel_turn_spec key owa channel [] s1.2)
      as (made & new & -> & _ & Hall).
    cbn [app]. eapply Forall_impl; [exact Hall|].
    intros v (c & _ & _ & _ & _ & item & ->%list_elem_of_singleton & _ & _ & _ & _ & _ & Hmake).
    by apply make_video_inv in Hmake as [-> _].
  - intros e made w' Hf. split; [|by eapply fetch_channel_videos_failure].
    subst sc. unfold channel_turn. cbn [fst snd]. by rewrite Hf.
Qed.

End Aggregator.

(** The feed of "UU1" has uploads of one, six and ten days ago: the
    aggregator asks for the details of the first two only and returns a
    short video of 45 s and a long one of 120 s. *)
Example aggregate_cycle :
  let r := get_recent_videos [Examples.cycle] "key" Examples.now
             (start Examples.cycle_script "key") in
  (fun v => (v_id v, v_duration_sec v, v_is_short v)) <$> r.1
  = [("v1", 45000000 # 1000000, true); ("v2", 120000000 # 1000000, false)]
  /\ (fun ev => match ev with ev_videos ids _ => Some ids | _ => None end)
       <$> api_log r.2
     = [None; Some "v1,v2"].
Proof. split; vm_compute; reflexivity. Qed.

(** On [Examples.cycle_script] a call for the channel "UC1" fills the
    cache under the key "key"; a minute later a call with the empty
    channel list and the same key returns the two videos of that entry. *)
Lemma C10_counterexample :
  let w := start Examples.cycle_script "key" in
  let first :=
    cached_get_recent_videos ∅ 0 1 [Examples.cycle] "key" Examples.now w in
  let again :=
    cached_get_recent_videos first.1.2 60 61 [] "key" Examples.now first.2 in
  v_id <$> again.1.1 = ["v1"; "v2"] /\ again.1.1 <> [].
Proof. vm_compute. split; [reflexivity|discriminate]. Qed.

(** The same two calls, and a third one after the entry has expired:
    neither call with the empty list executes a request; the first
    returns the cached videos, the second the empty list. *)
Lemma C10_empty_list_no_request_witness :
  let w := start Examples.cycle_script "key" in
  let first :=
    cached_get_recent_videos ∅ 0 1 [Examples.cycle] "key" Examples.now w in
  let again :=
    cached_get_recent_videos first.1.2 60 61 [] "key" Examples.now first.2 in
  let late :=
    cached_get_recent_videos first.1.2 601 602 [] "key" Examples.now first.2 in
  (api_log again.2 = api_log first.2 /\ v_id <$> again.1.1 = ["v1"; "v2"])
  /\ (api_log late.2 = api_log first.2 /\ late.1.1 = []).
Proof.
  intros w first again late. split.
  - destruct (C10_empty_list_no_request first.1.2 60 61 "key" Examples.now
                first.2) as (Hlog & _ & Hvideos).
    split; [exact Hlog|].
    change (again.1.1 = ce_value (mk_entry (1 + ttl)%Q first.1.1 [])) in Hvideos.
    rewrite Hvideos. vm_compute. reflexivity.
  - destruct (C10_empty_list_no_request first.1.2 601 602 "key" Examples.now
                first.2) as (Hlog & _ & Hvideos).
    split; [exact Hlog|exact Hvideos].
Defined.

(** The feed of "UU1" on [Examples.stale_script] lists "v1" inside the
    window, the details give it a [publishedAt] before the window, and
    the video is returned with that value. *)
Lemma C2_counterexample :
  exists v,
    v ∈ (get_recent_videos [Examples.cycle] "key" Examples.now
           (start Examples.stale_script "key")).1
    /\ (dt_wall (replace_tzinfo_None (v_published_at v))
        < Examples.now - timedelta_days 7)%Z.
Proof.
  eexists. split.
  - vm_compute. left.
  - vm_compute. reflexivity.
Qed.

Lemma C2_window_on_feed_items_witness :
  let w := start Examples.cycle_script "key" in
  let one_week_ago := (Examples.now - timedelta_days 7)%Z in
  (exists new v,
     v_id v = "v1" /\ fetched_from one_week_ago [Examples.cycle] new v)
  /\ (one_week_ago
      <= Ref.wall_clock 2024 1 10 0 0 0)%Z.
Proof.
  intros w one_week_ago.
  destruct (C2_window_on_feed_items [Examples.cycle] "key" Examples.now w)
    as [(new & _ & Hfetched) Hsame].
  split.
  - eexists new, _. split; [|apply Hfetched; vm_compute; left]. reflexivity.
  - apply (Hsame Examples.cycle
             (Examples.video_item "v1" "2024-01-10T00:00:00Z" "PT45S")
             (mk_video "v1" "UC1" "Cycle" "video v1" "https://img/v1"
                (mk_datetime (Ref.wall_clock 2024 1 10 0 0 0) (Some 0%Z))
                100 7 0 (total_seconds 45000000%Z) true
                "https://www.youtube.com/watch?v=v1")
             (Examples.feed_item "2024-01-10T00:00:00Z" "v1") "v1"
             {| ps_publishedAt := Some "2024-01-10T00:00:00Z" |}
             "2024-01-10T00:00:00Z"
             {| vs_title := Some "video v1";
                vs_thumbnails := Some (Examples.thumbs "https://img/v1");
                vs_publishedAt := Some "2024-01-10T00:00:00Z" |}).
    + vm_compute. reflexivity.
    + eexists _, _, _, _. split_and!; try reflexivity.
      vm_compute. discriminate.
    + reflexivity.
    + reflexivity.
    + reflexivity.
    + reflexivity.
Defined.

Lemma C3_is_short_witness :
  exists b1 b2,
    (get_recent_videos [Examples.boundary] "key" Examples.now
       (start Examples.cycle_script "key")).1 = [b1; b2]
    /\ (v_duration_sec b1 == 59999 # 1000)%Q /\ v_is_short b1 = true
    /\ (v_duration_sec b2 == 60)%Q /\ v_is_short b2 = false.
Proof.
  eexists _, _. split; [vm_compute; reflexivity|].
  split; [reflexivity|]. split.
  - eapply (C3_is_short [Examples.boundary] "key" Examples.now
              (start Examples.cycle_script "key")).
    + vm_compute. left.
    + reflexivity.
  - split; [reflexivity|].
    eapply (C3_is_short [Examples.boundary] "key" Examples.now
              (start Examples.cycle_script "key")).
    + vm_compute. right. left.
    + reflexivity.
Defined.

(** On [Examples.broken_script] the second detail record of "UC1" raises
    [KeyError]; the video of the first record stays in the result. *)
Lemma C7_counterexample :
  let w := start Examples.broken_script "key" in
  let one_week_ago := (Examples.now - timedelta_days 7)%Z in
  (fetch_channel_videos "key" one_week_ago Examples.cycle [] w).1.1
  = inl (KeyError "contentDetails")
  /\ exists v,
      v ∈ (get_recent_videos [Examples.cycle; Examples.second] "key"
             Examples.now w).1
      /\ v_channel_id v = c_id Examples.cycle.
Proof.
  split; [vm_compute; reflexivity|].
  eexists. split; [vm_compute; left|reflexivity].
Qed.

Lemma C7_error_isolation_witness :
  let w := start Examples.broken_script "key" in
  let one_week_ago := (Examples.now - timedelta_days 7)%Z in
  let sc := channel_turn "key" one_week_ago ([], w) Examples.cycle in
  let s2 := channel_loop "key" one_week_ago [Examples.second] ([], sc.2) in
  get_recent_videos [Examples.cycle; Examples.second] "key" Examples.now w
  = (sc.1 ++ s2.1, s2.2)
  /\ Forall (fun v => v_channel_id v = "UC1") sc.1
  /\ stdout sc.2 = ["Error fetching Cycle: 'contentDetails'"].
Proof.
  intros w one_week_ago sc s2.
  assert (get_youtube_service "key" w = (true, w)) as Hservice by reflexivity.
  destruct (C7_error_isolation "key" Examples.now [] [Examples.second]
              Examples.cycle w w Hservice) as (H1 & H2 & _).
  split; [exact H1|]. split; [exact H2|].
  reflexivity.
Defined.

(** ** Channel resolver *)

Section Resolver.
Context {Y : Type} {platform : Platform Y}.

Implicit Types (w : World Y) (t : Z) (item : ChannelItem) (c : Channel).

(** *** The lookups leave the session alone *)

Lemma get_youtube_service_session key w b w' :
  get_youtube_service key w = (b, w') ->
  channels w' = channels w /\ folders w' = folders w /\ api_key w' = api_key w.
Proof.
  unfold get_youtube_service.
  destruct (build key (yt w)) as [[e|?] y]; by intros [= <- <-].
Qed.

Lemma call_channels_session key q w r w' :
  call_channels key q w = (r, w') ->
  channels w' = channels w /\ folders w' = folders w /\ api_key w' = api_key w.
Proof.
  unfold call_channels. destruct (channels_list _ _ _) as [r0 y].
  by intros [= <- <-].
Qed.

Lemma call_search_session key q w r w' :
  call_search key q w = (r, w') ->
  channels w' = channels w /\ folders w' = folders w /\ api_key w' = api_key w.
Proof.
  unfold call_search. destruct (search_list _ _ _) as [r0 y].
  by intros [= <- <-].
Qed.

Lemma resolves_session key n identifier w item w' :
  resolves key n identifier w item w' ->
  channels w' = channels w /\ folders w' = folders w /\ api_key w' = api_key w.
Proof.
  induction 1 as [identifier w w1 w2 response item rest Hs Hc _
                 |n identifier w w1 w2 w3 response sr first rest snippet
                    channel_id item w' Hs Hc _ Hq _ _ _ _ IH].
  - apply get_youtube_service_session in Hs as (<- & <- & <-).
    by apply call_channels_session in Hc.
  - apply get_youtube_service_session in Hs as (<- & <- & <-).
    apply call_channels_session in Hc as (<- & <- & <-).
    by apply call_search_session in Hq as (<- & <- & <-).
Qed.

(** *** The exception handler *)

Lemma except_HttpError_idem (r : Result (option Channel) * World Y) :
  except_HttpError (except_HttpError r) = except_HttpError r.
Proof. by destruct r as [[[]|] w]. Qed.

Lemma except_HttpError_channel (r : Result (option Channel) * World Y) c w :
  except_HttpError r = (inr (Some c), w) -> r = (inr (Some c), w).
Proof. by destruct r as [[[]|] w']. Qed.

(** *** Registration of the channel found *)

Lemma channel_record_folder item fid c :
  channel_record item fid = inr c -> c_folder_id c = fid.
Proof. unfold channel_record. intros H. inv_rbind H. by injection H as <-. Qed.

Lemma register_item_duplicate item t w id :
  ci_id item = Some id -> id ∈ (c_id <$> channels w) ->
  register_item item t w
  = (inr None, show (st_warning "이미 등록된 채널입니다.") w).
Proof.
  intros Hid Hin. unfold register_item, is_duplicate.
  destruct (channels w) as [|c0 chans] eqn:Hchans; [by apply elem_of_nil in Hin|].
  rewrite Hid. cbn [getitem rbind].
  replace (existsb _ _) with true; [done|]. symmetry. apply existsb_exists.
  apply list_elem_of_fmap in Hin as (c & -> & Hc).
  exists c. split; [by apply list_elem_of_In|apply String.eqb_refl].
Qed.

Lemma register_item_channel item t w c w2 :
  register_item item t w = (inr (Some c), w2) ->
  channels w2 = channels w /\
  match folders w with
  | [] =>
      folders w2 = [ {| f_id := "f-" +:+ pretty t; f_name := "기본 폴더" |} ]
      /\ c_folder_id c = "f-" +:+ pretty t
  | f :: _ => folders w2 = folders w /\ c_folder_id c = f_id f
  end.
Proof.
  unfold register_item. destruct (is_duplicate _ _) as [e|[|]]; [done..|].
  destruct (folders w) as [|f fs] eqn:Hfolders;
    destruct (channel_record _ _) as [e|c'] eqn:Hrecord; cbn [rbind];
    try done; intros [= <- <-]; apply channel_record_folder in Hrecord;
    cbn; by rewrite ?Hfolders.
Qed.

(** *** The whole resolver *)

(** With enough fuel for the fallbacks, the resolver registers the item
    the lookups reach. *)
Lemma fetch_channel_info_resolves key n identifier w item w1 t :
  resolves key n identifier w item w1 ->
  forall fuel, (n < fuel)%nat ->
    fetch_channel_info fuel identifier key t w
    = Some (except_HttpError (register_item item t w1)).
Proof.
  induction 1 as [identifier w w1 w2 response item rest Hs Hc Hitems
                 |n identifier w w1 w2 w3 response sr first rest snippet
                    channel_id item w' Hs Hc Hitems Hq Hsr Hsn Hid _ IH];
    intros [|fuel] Hfuel; try lia; cbn [fetch_channel_info];
    rewrite Hs, Hc.
  - by rewrite Hitems.
  - assert (match clr_items response with Some (_ :: _) => False | _ => True end)
      as Hnone by (by destruct (clr_items response) as [[|]|]).
    destruct (clr_items response) as [[|? ?]|]; try done;
      rewrite Hq, Hsr, Hsn; cbn [getitem rbind]; rewrite Hid;
      cbn [getitem rbind]; rewrite (IH fuel) by lia; cbn;
      by rewrite except_HttpError_idem.
Qed.

(** X13. The resolver does return the channel: when the lookups reach an
    item that is not tracked yet and has the fields of the record, enough
    fuel gives the record, assigned to the first folder or to the new
    one. *)
Lemma fetch_channel_info_registers key n identifier w item w1 t fuel c :
  resolves key n identifier w item w1 ->
  (n < fuel)%nat ->
  is_duplicate item (channels w) = inr false ->
  channel_record item
    (match folders w with [] => "f-" +:+ pretty t | f :: _ => f_id f end)
  = inr c ->
  exists w2,
    fetch_channel_info fuel identifier key t w = Some (inr (Some c), w2).
Proof.
  intros Hres Hfuel Hdup Hrecord.
  rewrite (fetch_channel_info_resolves _ _ _ _ _ _ t Hres) by done.
  apply resolves_session in Hres as (Hchans & Hfolders & _).
  unfold register_item. rewrite Hchans, Hdup, Hfolders.
  destruct (folders w) as [|f fs]; rewrite Hrecord; by eexists.
Qed.

(** A channel is returned only by registering an item, in a world whose
    session is the one the call started from. *)
Lemma fetch_channel_info_channel fuel identifier key t w c w2 :
  fetch_channel_info fuel identifier key t w = Some (inr (Some c), w2) ->
  exists item w1,
    channels w1 = channels w /\ folders w1 = folders w /\
    register_item item t w1 = (inr (Some c), w2).
Proof.
  revert identifier w. induction fuel as [|fuel IH]; intros identifier w; [done|].
  cbn [fetch_channel_info].
  destruct (get_youtube_service key w) as [[|] w0] eqn:Hs; [|done].
  apply get_youtube_service_session in Hs as (<- & <- & _).
  destruct (call_channels _ _ _) as [[e|response] w1] eqn:Hc;
    apply call_channels_session in Hc as (<- & <- & _); [by destruct e|].
  assert (forall o : option (Result (option Channel) * World Y),
            except_HttpError <$> o = Some (inr (Some c), w2) ->
            o = Some (inr (Some c), w2)) as Hexcept.
  { intros [r|]; [|done]. cbn. intros [= H].
    by apply except_HttpError_channel in H as ->. }
  intros Hfetch%Hexcept.
  assert (match call_search key identifier w1 with
          | (inl e, w) => Some (inl e, w)
          | (inr search_response, w) =>
              match slr_items search_response with
              | Some (first :: _) =>
                  match (snippet <~ getitem "snippet" (si_snippet first) ;;
                         getitem "channelId" (ss_channelId snippet)) with
                  | inl e => Some (inl e, w)
                  | inr channel_id => fetch_channel_info fuel channel_id key t w
                  end
              | _ => Some (inr None, show (st_error "채널을 찾을 수 없습니다.") w)
              end
          end = Some (inr (Some c), w2) ->
          exists item w1',
            channels w1' = channels w1 /\ folders w1' = folders w1 /\
            register_item item t w1' = (inr (Some c), w2)) as Hsearch.
  { destruct (call_search _ _ _) as [[e|sr] w3] eqn:Hq;
      apply call_search_session in Hq as (<- & <- & _); [done|].
    destruct (slr_items sr) as [[|first rest]|]; [done| |done].
    destruct (_ <~ _ ;; _) as [e|channel_id]; [done|]. apply IH. }
  destruct (clr_items response) as [[|item rest]|]; [by apply Hsearch| |by apply Hsearch].
  injection Hfetch as Hregister. by exists item, w1.
Qed.

(** C4 (as amended). When the resolver returns a channel and there was no
    folder, the folders afterwards are exactly one new folder, named
    "기본 폴더" ("default folder"), whose id is "f-" followed by the clock
    reading in seconds, and the channel's [folder_id] is that id; the
    button handler then appends the channel as it is. When there were
    folders, they are unchanged and the channel gets the id of the first
    one. *)
Theorem C4_default_folder fuel identifier key t w c w2 :
  fetch_channel_info fuel identifier key t w = Some (inr (Some c), w2) ->
  (folders w = [] ->
     folders w2 = [ {| f_id := "f-" +:+ pretty t; f_name := "기본 폴더" |} ]
     /\ c_folder_id c = "f-" +:+ pretty t
     /\ (api_key w = key -> key <> "" -> identifier <> "" ->
         forall pick, exists w3,
           add_channel_click fuel identifier pick t w = Some (inr tt, w3)
           /\ channels w3 = channels w ++ [c]
           /\ folders w3 = folders w2))
  /\ (forall f fs, folders w = f :: fs ->
        folders w2 = f :: fs /\ c_folder_id c = f_id f).
Proof.
  intros Hfetch.
  destruct (fetch_channel_info_channel _ _ _ _ _ _ _ Hfetch)
    as (item & w1 & Hchans & Hfolders & Hregister).
  apply register_item_channel in Hregister as [Hchans2 Hfolder].
  rewrite Hfolders in Hfolder. split.
  - intros Hnil. rewrite Hnil in Hfolder. destruct Hfolder as [Hf2 Hc].
    split; [done|]. split; [done|].
    intros Hkey Hne Hid pick. unfold add_channel_click.
    rewrite Hkey, Hfetch, Hnil.
    change (selected_folder_for_add [] pick) with (@None string).
    destruct (String.eqb_spec key ""); [done|].
    destruct (String.eqb_spec identifier ""); [done|]. cbn [negb].
    eexists. split; [reflexivity|]. cbn. rewrite Hchans2, Hchans.
    split; reflexivity.
  - intros f fs Hcons. by rewrite Hcons in Hfolder.
Qed.

(** C5. When the lookups reach a channel whose id is already among the
    session's channels, the resolver returns [None] after the warning
    "이미 등록된 채널입니다." ("channel already registered"), and neither it
    nor the button handler changes the channels or the folders. *)
Theorem C5_duplicate_no_mutation key n identifier w item w1 id t fuel :
  resolves key n identifier w item w1 ->
  ci_id item = Some id ->
  id ∈ (c_id <$> channels w) ->
  (n < fuel)%nat ->
  let w2 := show (st_warning "이미 등록된 채널입니다.") w1 in
  fetch_channel_info fuel identifier key t w = Some (inr None, w2)
  /\ channels w2 = channels w
  /\ folders w2 = folders w
  /\ (api_key w = key -> key <> "" -> identifier <> "" ->
      forall pick,
        add_channel_click fuel identifier pick t w = Some (inr tt, w2)).
Proof.
  intros Hres Hid Hin Hfuel w2.
  pose proof (resolves_session _ _ _ _ _ _ Hres) as (Hchans & Hfolders & _).
  assert (fetch_channel_info fuel identifier key t w = Some (inr None, w2))
    as Hfetch.
  { rewrite (fetch_channel_info_resolves _ _ _ _ _ _ t Hres) by done.
    rewrite (register_item_duplicate _ _ _ id) by (by rewrite ?Hchans). done. }
  split; [done|]. split; [done|]. split; [done|].
  intros Hkey Hne Hidt pick. unfold add_channel_click.
  rewrite Hkey, Hfetch.
  destruct (String.eqb_spec key ""); [done|].
  by destruct (String.eqb_spec identifier "").
Qed.

(** C8 (the code at two clicks within one second). Two folders added
    while the clock shows the same second are two different folders with
    the same id. *)
Theorem C8_same_second_same_id w t :
  exists w' f1 f2,
    run_clicks [click_add_folder "A" t; click_add_folder "B" t] w = Some w'
    /\ folders w' = folders w ++ [f1; f2]
    /\ f1 <> f2
    /\ f_id f1 = f_id f2.
Proof.
  eexists _, _, _. split; [reflexivity|]. cbn.
  rewrite <- app_assoc. split; [reflexivity|]. split; [|reflexivity].
  intros [= ].
Qed.

(** *** When the ids do differ *)

Lemma folder_stamp_inj : Inj (=) (=) folder_stamp.
Proof. intros t1 t2 [= H]. by apply (inj pretty). Qed.

Lemma except_HttpError_folders (r : Result (option Channel) * World Y) :
  folders (except_HttpError r).2 = folders r.2.
Proof. by destruct r as [[[]|] w]. Qed.

Lemma register_item_folders item t w :
  folders (register_item item t w).2 = folders w
  \/ folders (register_item item t w).2
     = folders w ++ [ {| f_id := folder_stamp t; f_name := "기본 폴더" |} ].
Proof.
  unfold register_item. destruct (is_duplicate _ _) as [e|[|]]; [by left..|].
  destruct (folders w) as [|f fs] eqn:Hfolders; cbn; rewrite Hfolders;
    [by right|by left].
Qed.

(** Whatever the resolver returns, it has left the folders alone or
    appended the default folder stamped with its clock reading. *)
Lemma fetch_channel_info_folders fuel identifier key t w r w' :
  fetch_channel_info fuel identifier key t w = Some (r, w') ->
  folders w' = folders w
  \/ folders w' = folders w ++ [ {| f_id := folder_stamp t; f_name := "기본 폴더" |} ].
Proof.
  revert identifier w r w'.
  induction fuel as [|fuel IH]; intros identifier w r w'; [done|].
  cbn [fetch_channel_info].
  destruct (get_youtube_service key w) as [[|] w0] eqn:Hs;
    apply get_youtube_service_session in Hs as (_ & <- & _);
    [|intros [= <- <-]; by left].
  destruct (call_channels _ _ _) as [[e|response] w1] eqn:Hc;
    apply call_channels_session in Hc as (_ & <- & _).
  { destruct e; cbn; intros [= <- <-]; by left. }
  assert (forall o : option (Result (option Channel) * World Y),
            (forall x, o = Some x ->
               folders x.2 = folders w1
               \/ folders x.2 = folders w1 ++
                    [ {| f_id := folder_stamp t; f_name := "기본 폴더" |} ]) ->
            except_HttpError <$> o = Some (r, w') ->
            folders w' = folders w1
            \/ folders w' = folders w1 ++
                 [ {| f_id := folder_stamp t; f_name := "기본 폴더" |} ])
    as Hexcept.
  { intros [x|] Hx; [|done]. cbn. intros [= H].
    specialize (Hx x eq_refl). rewrite <- except_HttpError_folders in Hx.
    by rewrite H in Hx. }
  apply Hexcept. intros x.
  assert (match call_search key identifier w1 with
          | (inl e, w) => Some (inl e, w)
          | (inr search_response, w) =>
              match slr_items search_response with
              | Some (first :: _) =>
                  match (snippet <~ getitem "snippet" (si_snippet first) ;;
                         getitem "channelId" (ss_channelId snippet)) with
                  | inl e => Some (inl e, w)
                  | inr channel_id => fetch_channel_info fuel channel_id key t w
                  end
              | _ => Some (inr None, show (st_error "채널을 찾을 수 없습니다.") w)
              end
          end = Some x ->
          folders x.2 = folders w1
          \/ folders x.2 = folders w1 ++
               [ {| f_id := folder_stamp t; f_name := "기본 폴더" |} ]) as Hsearch.
  { destruct (call_search _ _ _) as [[e|sr] w3] eqn:Hq;
      apply call_search_session in Hq as (_ & <- & _);
      [intros [= <-]; by left|].
    destruct (slr_items sr) as [[|first rest]|];
      [intros [= <-]; by left| |intros [= <-]; by left].
    destruct (_ <~ _ ;; _) as [e|channel_id]; [intros [= <-]; by left|].
    destruct x as [rx wx]. apply IH. }
  destruct (clr_items response) as [[|item rest]|]; [done| |done].
  intros [= <-]. apply register_item_folders.
Qed.

Lemma click_folders w (c : Click) w' :
  click w c = Some w' ->
  folders w' = folders w
  \/ exists name,
       folders w' = folders w ++
         [ {| f_id := folder_stamp (click_time c); f_name := name |} ].
Proof.
  destruct c as [new_folder t|fuel new_channel_id pick t]; cbn.
  - intros [= <-]. unfold add_folder_click.
    destruct (String.eqb new_folder ""); cbn; [by left|right; by eexists].
  - unfold add_channel_click.
    destruct (String.eqb (api_key w) ""); [intros [= <-]; by left|].
    destruct (String.eqb new_channel_id ""); cbn [negb]; [intros [= <-]; by left|].
    destruct (fetch_channel_info _ _ _ _ _) as [[r w1]|] eqn:Hfetch; [|done].
    apply fetch_channel_info_folders in Hfetch.
    assert (folders w' = folders w1 ->
            folders w' = folders w
            \/ exists name,
                 folders w' = folders w ++
                   [ {| f_id := folder_stamp t; f_name := name |} ]) as Hw1.
    { intros ->. destruct Hfetch as [->| ->]; [by left|right; by eexists]. }
    destruct r as [e|[channel_info|]]; cbn; intros [= <-]; by apply Hw1.
Qed.

(** X16. Starting without folders, folder ids are pairwise different as
    long as every click reads a later second than the clicks before
    it. *)
Lemma folder_ids_unique_when_clock_advances (cs : list Click) w w' :
  run_clicks cs w = Some w' ->
  folders w = [] ->
  StronglySorted Z.lt (click_time <$> cs) ->
  NoDup (f_id <$> folders w').
Proof.
  intros Hrun Hnil Hsorted.
  cut (exists ts, f_id <$> folders w' = folder_stamp <$> ts /\ NoDup ts).
  { intros (ts & -> & Hts). by apply (NoDup_fmap_2 _). }
  assert (exists ts, f_id <$> folders w = folder_stamp <$> ts /\ NoDup ts /\
                     Forall (fun t => Forall (Z.lt t) (click_time <$> cs)) ts)
    as Hinv
    by (exists []; rewrite Hnil; split_and!; [done|constructor|constructor]).
  clear Hnil. revert w Hrun Hinv.
  induction cs as [|c cs IH]; intros w Hrun (ts & Hids & Hts & Hbefore).
  - injection Hrun as <-. by exists ts.
  - cbn [run_clicks] in Hrun. destruct (click w c) as [w1|] eqn:Hclick; [|done].
    apply StronglySorted_inv in Hsorted as [Hsorted Hlater].
    apply (IH Hsorted w1 Hrun).
    apply click_folders in Hclick as [->|(name & ->)].
    + exists ts. split; [done|]. split; [done|].
      eapply Forall_impl; [exact Hbefore|]. intros t Ht.
      by apply Forall_cons in Ht as [_ Ht].
    + exists (ts ++ [click_time c]). rewrite !fmap_app, Hids. split; [done|].
      split.
      * apply NoDup_app. split; [done|]. split; [|apply NoDup_singleton].
        intros t Ht ->%list_elem_of_singleton.
        rewrite Forall_forall in Hbefore.
        pose proof (Hbefore _ Ht) as Hlt. apply Forall_cons in Hlt as [Hlt _]. lia.
      * apply Forall_app. split.
        -- eapply Forall_impl; [exact Hbefore|]. intros t Ht.
           by apply Forall_cons in Ht as [_ Ht].
        -- by apply Forall_singleton.
Qed.

End Resolver.

(** On [Examples.cycle_script], without folders, the handle "@cycle"
    resolves; the one folder created is not named "Default". *)
Lemma C4_counterexample :
  exists c w2 f,
    fetch_channel_info 1 "@cycle" "key" 1700000000
      (start Examples.cycle_script "key") = Some (inr (Some c), w2)
    /\ folders w2 = [f]
    /\ f_name f <> "Default".
Proof.
  eexists _, _, _. split; [vm_compute; reflexivity|].
  split; [reflexivity|]. discriminate.
Qed.

Lemma C4_default_folder_witness :
  (exists c w2 w3,
     fetch_channel_info 1 "@cycle" "key" 1700000000
       (start Examples.cycle_script "key") = Some (inr (Some c), w2)
     /\ folders w2 = [ {| f_id := "f-1700000000"; f_name := "기본 폴더" |} ]
     /\ c_folder_id c = "f-1700000000"
     /\ add_channel_click 1 "@cycle" None 1700000000
          (start Examples.cycle_script "key") = Some (inr tt, w3)
     /\ channels w3 = [c]
     /\ folders w3 = folders w2)
  /\ (exists c w2,
        fetch_channel_info 1 "@cycle" "key" 1700000300 Examples.two_folders
        = Some (inr (Some c), w2)
        /\ folders w2 = folders Examples.two_folders
        /\ c_folder_id c = "f-1700000100").
Proof.
  split.
  - assert (exists c w2,
              fetch_channel_info 1 "@cycle" "key" 1700000000
                (start Examples.cycle_script "key") = Some (inr (Some c), w2))
      as (c & w2 & Hfetch) by (eexists _, _; vm_compute; reflexivity).
    destruct (C4_default_folder _ _ _ _ _ _ _ Hfetch) as [Hempty _].
    destruct (Hempty eq_refl) as (Hfolders & Hfolder & Hclick).
    destruct (Hclick eq_refl ltac:(discriminate) ltac:(discriminate) None)
      as (w3 & Hadd & Hchans & Hf3).
    exists c, w2, w3. split_and!; done.
  - assert (exists c w2,
              fetch_channel_info 1 "@cycle" "key" 1700000300 Examples.two_folders
              = Some (inr (Some c), w2))
      as (c & w2 & Hfetch) by (eexists _, _; vm_compute; reflexivity).
    destruct (C4_default_folder _ _ _ _ _ _ _ Hfetch) as [_ Hcons].
    destruct (Hcons _ _ eq_refl) as [Hfolders Hfolder].
    exists c, w2. split_and!; done.
Defined.

Lemma C5_duplicate_no_mutation_witness :
  (exists w2,
     fetch_channel_info 1 "UC1" "key" 1700000005 Examples.tracking
     = Some (inr None, w2)
     /\ add_channel_click 1 "UC1" None 1700000005 Examples.tracking
        = Some (inr tt, w2)
     /\ channels w2 = channels Examples.tracking
     /\ folders w2 = folders Examples.tracking)
  /\ (exists w2,
        fetch_channel_info 2 "cycle tv" "key" 1700000005 Examples.tracking
        = Some (inr None, w2)
        /\ channels w2 = channels Examples.tracking
        /\ folders w2 = folders Examples.tracking).
Proof.
  assert ("UC1" ∈ c_id <$> channels Examples.tracking) as Hin by (cbn; left).
  split.
  - assert (exists w1,
              resolves "key" 0 "UC1" Examples.tracking Examples.cycle_item w1)
      as (w1 & Hres).
    { eexists. eapply resolves_direct; reflexivity. }
    destruct (C5_duplicate_no_mutation "key" 0 "UC1" Examples.tracking
                Examples.cycle_item w1 "UC1" 1700000005 1 Hres eq_refl Hin
                (le_n 1))
      as (Hfetch & Hchans & Hfolders & Hclick).
    eexists. split; [exact Hfetch|].
    split; [apply Hclick; [reflexivity|discriminate|discriminate]|].
    split; [exact Hchans|exact Hfolders].
  - assert (exists w1,
              resolves "key" 1 "cycle tv" Examples.tracking Examples.cycle_item w1)
      as (w1 & Hres).
    { eexists. eapply resolves_hop.
      - reflexivity.
      - reflexivity.
      - reflexivity.
      - reflexivity.
      - reflexivity.
      - reflexivity.
      - reflexivity.
      - eapply resolves_direct; reflexivity. }
    destruct (C5_duplicate_no_mutation "key" 1 "cycle tv" Examples.tracking
                Examples.cycle_item w1 "UC1" 1700000005 2 Hres eq_refl Hin
                (le_n 2))
      as (Hfetch & Hchans & Hfolders & _).
    eexists. split; [exact Hfetch|]. split; [exact Hchans|exact Hfolders].
Defined.

(** Resolving the same channel twice: the second click leaves one
    channel and one folder. *)
Example add_same_channel_twice :
  (fun w => (c_id <$> channels w, f_id <$> folders w)) <$>
    run_clicks [click_add_channel 1 "@cycle" None 1700000000;
                click_add_channel 1 "UC1" None 1700000005]
               (start Examples.cycle_script "key")
  = Some (["UC1"], ["f-1700000000"]).
Proof. vm_compute. reflexivity. Qed.

(** The search fallback is not bounded: the resolver that finds nothing
    by id searches again. *)
Lemma loop_script_never_returns fuel identifier t (w : World Ref.Script) :
  yt w = Examples.loop_script ->
  fetch_channel_info fuel identifier "key" t w = None.
Proof.
  revert identifier w. induction fuel as [|fuel IH]; intros identifier w Hyt; [done|].
  destruct w as [y log k chans fs u out]. cbn in Hyt. subst y.
  cbn [fetch_channel_info]. unfold get_youtube_service. cbn.
  rewrite IH; done.
Qed.

(** C6 (the code on a platform that cannot list what its search
    offers). On [Examples.two_hop_script] the resolver returns after two
    search fallbacks; on [Examples.loop_script] no amount of fuel lets it
    return. *)
Theorem C6_fallback_is_unbounded :
  (exists c w',
     fetch_channel_info 3 "cycle tv" "key" 1700000000
       (start Examples.two_hop_script "key") = Some (inr (Some c), w')
     /\ c_id c = "UC1"
     /\ length (List.filter is_search (api_log w')) = 2%nat)
  /\ (forall fuel identifier t,
        fetch_channel_info fuel identifier "key" t
          (start Examples.loop_script "key") = None).
Proof.
  split.
  - eexists _, _. split; [vm_compute; reflexivity|]. split; reflexivity.
  - intros fuel identifier t. by apply loop_script_never_returns.
Qed.

(** * Further properties of the filter engine *)

Lemma py_sum_from (l : list Z) (a : Z) : fold_left Z.add l a = (a + py_sum l)%Z.
Proof.
  unfold py_sum. revert a.
  induction l as [|x l IH]; intros a; cbn [fold_left]; [lia|].
  rewrite (IH (a + x)%Z), (IH (0 + x)%Z). lia.
Qed.

Lemma py_sum_cons (x : Z) (l : list Z) : py_sum (x :: l) = (x + py_sum l)%Z.
Proof. unfold py_sum at 1. cbn. apply py_sum_from. Qed.

Lemma list_filter_comm {A} (f g : A -> bool) (l : list A) :
  List.filter f (List.filter g l) = List.filter g (List.filter f l).
Proof.
  induction l as [|x l IH]; [done|]. cbn.
  destruct (g x) eqn:Hg, (f x) eqn:Hf; cbn; rewrite ?Hg, ?Hf, IH; done.
Qed.

Lemma list_filter_idem {A} (f : A -> bool) (l : list A) :
  List.filter f (List.filter f l) = List.filter f l.
Proof.
  induction l as [|x l IH]; [done|]. cbn.
  destruct (f x) eqn:Hf; cbn; rewrite ?Hf, IH; done.
Qed.

Lemma list_filter_sublist {A} (f : A -> bool) (l : list A) :
  List.filter f l `sublist_of` l.
Proof. induction l as [|x l IH]; cbn; [done|]. destruct (f x); by constructor. Qed.

(** X1. The two formats exclude each other: nothing passes the long-form
    filter and then the short-form filter, in either order. *)
Theorem format_filter_exclusive (videos : list Video) :
  format_filter ShortForm (format_filter LongForm videos) = []
  /\ format_filter LongForm (format_filter ShortForm videos) = [].
Proof.
  cbn. split; induction videos as [|v vs IH]; cbn; try done;
    destruct (v_is_short v) eqn:Hv; cbn; rewrite ?Hv; cbn; done.
Qed.

(** X2. The long-form and the short-form videos split the list: for the
    count and for each of the three totals, the metric of the whole list
    is the sum of the metrics of the two parts. *)
Theorem format_filter_splits_stats (videos : list Video) :
  let whole := aggregate_stats videos in
  let long := aggregate_stats (format_filter LongForm videos) in
  let short := aggregate_stats (format_filter ShortForm videos) in
  total_videos whole = (total_videos long + total_videos short)%Z
  /\ total_views whole = (total_views long + total_views short)%Z
  /\ total_likes whole = (total_likes long + total_likes short)%Z
  /\ total_comments whole = (total_comments long + total_comments short)%Z.
Proof.
  intros whole long short. subst whole long short.
  unfold aggregate_stats, format_filter.
  cbn [total_videos total_views total_likes total_comments].
  induction videos as [|v vs (IH1 & IH2 & IH3 & IH4)]; [done|].
  cbn [List.filter length fmap list_fmap].
  destruct (v_is_short v); cbn [negb length fmap list_fmap];
    rewrite !py_sum_cons; split_and!; lia.
Qed.

(** X3. The filters only drop videos: whatever the selection, the videos
    shown are a sublist of the videos fetched, in the same order. *)
Theorem filter_videos_only_drops videos chans selected_channel_id
    selected_folder_id type_filter :
  filter_videos videos chans selected_channel_id selected_folder_id type_filter
  `sublist_of` videos.
Proof. apply filter_videos_sublist. Qed.

(** X4. The hierarchical filter and the format filter can be applied in
    either order, and filtering the filtered videos again with the same
    selection changes nothing. *)
Theorem filter_videos_commute_idempotent videos chans selected_channel_id
    selected_folder_id type_filter :
  format_filter type_filter
    (hierarchical_filter videos chans selected_channel_id selected_folder_id)
  = hierarchical_filter (format_filter type_filter videos) chans
      selected_channel_id selected_folder_id
  /\ filter_videos
      (filter_videos videos chans selected_channel_id selected_folder_id
                     type_filter)
      chans selected_channel_id selected_folder_id type_filter
    = filter_videos videos chans selected_channel_id selected_folder_id
                    type_filter.
Proof.
  unfold filter_videos, format_filter, hierarchical_filter.
  assert (forall (f g : Video -> bool) l,
            List.filter f (List.filter g (List.filter f (List.filter g l)))
            = List.filter f (List.filter g l)) as Htwice.
  { intros f g l. rewrite (list_filter_comm g f (List.filter g l)).
    by rewrite !list_filter_idem. }
  destruct type_filter, (when_set selected_channel_id),
    (when_set selected_folder_id); cbn zeta; split;
    first [done|apply list_filter_comm|apply list_filter_idem|apply Htwice].
Qed.

(** * Properties of the sidebar navigation *)

Lemma dict_set_elem (k v : string) (d : Dict) (kv : string * string) :
  kv ∈ dict_set k v d -> kv = (k, v) \/ kv ∈ d.
Proof.
  induction d as [|[k' v'] d IH]; cbn.
  - intros ->%list_elem_of_singleton. by left.
  - destruct (String.eqb_spec k' k) as [->|Hne].
    + intros [->|Hin]%elem_of_cons; [by left|right; by right].
    + intros [->|Hin]%elem_of_cons; [right; left|].
      destruct (IH Hin) as [->|Hd]; [by left|right; by right].
Qed.

Lemma dict_of_elem (items : list (string * string)) (kv : string * string) :
  kv ∈ dict_of items -> kv ∈ items.
Proof.
  unfold dict_of.
  cut (forall d, kv ∈ foldl (fun d kv => dict_set kv.1 kv.2 d) d items ->
                 kv ∈ d \/ kv ∈ items).
  { intros H Hin. destruct (H [] Hin) as [Hnil|]; [|done].
    by apply elem_of_nil in Hnil. }
  induction items as [|[k v] items IH]; intros d; cbn; [by left|].
  intros [[->|Hd]%dict_set_elem|Hi]%IH.
  - right. left.
  - by left.
  - right. by right.
Qed.

Lemma dict_set_fresh (k v : string) (d : Dict) :
  k ∉ d.*1 -> dict_set k v d = d ++ [(k, v)].
Proof.
  induction d as [|[k' v'] d IH]; cbn; [done|].
  intros Hk. apply not_elem_of_cons in Hk as [Hne Hk].
  destruct (String.eqb_spec k' k) as [->|_]; [done|]. by rewrite IH.
Qed.

(** Without a repeated key the comprehension keeps the pairs as they
    come. *)
Lemma dict_of_NoDup (items : list (string * string)) :
  NoDup items.*1 -> dict_of items = items.
Proof.
  unfold dict_of.
  cut (forall d, NoDup (d ++ items).*1 ->
                 foldl (fun d kv => dict_set kv.1 kv.2 d) d items = d ++ items).
  { intros H Hnd. by apply (H []). }
  induction items as [|[k v] items IH]; intros d Hnd; cbn.
  - by rewrite app_nil_r.
  - rewrite dict_set_fresh.
    + rewrite IH; rewrite <- app_assoc; done.
    + rewrite fmap_app in Hnd. apply NoDup_app in Hnd as (_ & Hd & _).
      intros Hk. apply (Hd k Hk). left.
Qed.

Lemma first_key_elem (name : string) (d : Dict) (k : string) :
  first_key name d = Some k -> (k, name) ∈ d.
Proof.
  induction d as [|[k' v'] d IH]; cbn; [done|].
  destruct (String.eqb_spec v' name) as [->|_].
  - intros [= ->]. left.
  - intros Hk. right. by apply IH.
Qed.

(** The first pair with the name hides every later one. *)
Lemma first_key_front (name k1 : string) (d1 d2 : Dict) (k : string) :
  first_key name (d1 ++ (k1, name) :: d2) = Some k ->
  k ∈ (d1 ++ [(k1, name)]).*1.
Proof.
  induction d1 as [|[k' v'] d1 IH]; cbn.
  - rewrite String.eqb_refl. intros [= ->]. left.
  - destruct (String.eqb v' name); [intros [= ->]; left|].
    intros Hk. right. by apply IH.
Qed.

Lemma NoDup_fmap_elem {A B} (g : A -> B) (l : list A) (x y : A) :
  NoDup (g <$> l) -> x ∈ l -> y ∈ l -> g x = g y -> x = y.
Proof.
  induction l as [|a l IH]; cbn; [by intros _ ?%elem_of_nil|].
  intros [Ha Hl]%NoDup_cons [->|Hx]%elem_of_cons [->|Hy]%elem_of_cons Hg;
    [done| | |by apply IH].
  - destruct Ha. rewrite Hg. by apply list_elem_of_fmap_2.
  - destruct Ha. rewrite <- Hg. by apply list_elem_of_fmap_2.
Qed.

Lemma nav_folder_id_sound (fs : list Folder) (pick : nat) (fid : string) :
  nav_folder_id fs pick = Some fid ->
  exists f, f ∈ fs /\ f_id f = fid /\
            f_name f = selected_folder_name fs pick /\
            f_name f <> "전체 보기".
Proof.
  unfold nav_folder_id, name_to_id.
  destruct (String.eqb_spec (selected_folder_name fs pick) "전체 보기")
    as [|Hne]; [done|].
  intros Hkey%first_key_elem%dict_of_elem.
  apply list_elem_of_fmap in Hkey as (f & [= -> Hname] & Hf).
  exists f. split_and!; congruence.
Qed.

(** X5. A folder named like the "all" entry of the folder filter, "전체
    보기", can never be selected there: whatever the operator picks, the
    filter does not yield its id (folder ids being distinct). *)
Theorem nav_folder_all_entry_unreachable (fs : list Folder) (f : Folder)
    (pick : nat) :
  NoDup (f_id <$> fs) ->
  f ∈ fs ->
  f_name f = "전체 보기" ->
  nav_folder_id fs pick <> Some (f_id f).
Proof.
  intros Hnd Hf Hname (f' & Hf' & Hid & _ & Hne)%nav_folder_id_sound.
  rewrite (NoDup_fmap_elem f_id fs f' f Hnd Hf' Hf Hid) in Hne. done.
Qed.

(** X6. Of two folders with the same name, only the one added first can
    be selected in the folder filter: the filter never yields the id of
    the later one (folder ids being distinct). *)
Theorem nav_folder_same_name_shadowed (l1 l2 l3 : list Folder)
    (f1 f2 : Folder) (pick : nat) :
  let fs := l1 ++ f1 :: l2 ++ f2 :: l3 in
  NoDup (f_id <$> fs) ->
  f_name f1 = f_name f2 ->
  nav_folder_id fs pick <> Some (f_id f2).
Proof.
  intros fs Hnd Hname Hnav.
  pose proof Hnav as (f & Hf & Hid & Hsel & _)%nav_folder_id_sound.
  assert (f2 ∈ fs) as Hf2.
  { subst fs. apply elem_of_app. right. right. apply elem_of_app. right. left. }
  rewrite (NoDup_fmap_elem f_id fs f f2 Hnd Hf Hf2 Hid) in Hsel.
  unfold nav_folder_id, name_to_id in Hnav. rewrite <- Hsel in Hnav.
  destruct (String.eqb (f_name f2) "전체 보기"); [done|].
  unfold folder_map in Hnav. rewrite dict_of_NoDup in Hnav.
  2:{ rewrite <- list_fmap_compose. exact Hnd. }
  assert (f_id f2 ∈ f_id <$> (l1 ++ [f1])) as Hfront.
  { subst fs. rewrite fmap_app, fmap_cons, Hname in Hnav.
    apply first_key_front in Hnav.
    rewrite fmap_app, <- list_fmap_compose in Hnav.
    rewrite fmap_app. exact Hnav. }
  subst fs.
  replace (l1 ++ f1 :: l2 ++ f2 :: l3) with ((l1 ++ [f1]) ++ l2 ++ f2 :: l3)
    in Hnd by (by rewrite <- app_assoc).
  rewrite fmap_app in Hnd. apply NoDup_app in Hnd as (_ & Hdisjoint & _).
  apply (Hdisjoint _ Hfront).
  rewrite fmap_app, fmap_cons. apply elem_of_app. right. left.
Qed.

Lemma nav_folder_all_entry_unreachable_witness :
  let fs := [ {| f_id := "f-1700000100"; f_name := "전체 보기" |};
              {| f_id := "f-1700000200"; f_name := "Road" |} ] in
  selected_folder_name fs 1 = "전체 보기"
  /\ nav_folder_id fs 1 <> Some "f-1700000100".
Proof.
  intros fs. split; [reflexivity|].
  apply (nav_folder_all_entry_unreachable fs
           {| f_id := "f-1700000100"; f_name := "전체 보기" |} 1).
  - apply (bool_decide_unpack _). vm_compute. exact I.
  - left.
  - reflexivity.
Defined.

Lemma nav_folder_same_name_shadowed_witness :
  let fs := [ {| f_id := "f-1700000100"; f_name := "Road" |};
              {| f_id := "f-1700000200"; f_name := "Road" |} ] in
  nav_folder_id fs 1 = Some "f-1700000100"
  /\ nav_folder_id fs 2 <> Some "f-1700000200".
Proof.
  intros fs. split; [reflexivity|].
  apply (nav_folder_same_name_shadowed []  [] []
           {| f_id := "f-1700000100"; f_name := "Road" |}
           {| f_id := "f-1700000200"; f_name := "Road" |} 2).
  - apply (bool_decide_unpack _). vm_compute. exact I.
  - reflexivity.
Defined.

Lemma when_set_inv (o : option string) (s : string) :
  when_set o = Some s -> o = Some s /\ s <> "".
Proof.
  unfold when_set, truthy. destruct o as [s'|]; [|done].
  destruct (String.eqb_spec s' ""); [done|]. by intros [= ->].
Qed.

Lemma elem_of_list_filter {A} (f : A -> bool) (l : list A) (x : A) :
  x ∈ List.filter f l <-> x ∈ l /\ f x = true.
Proof. rewrite !list_elem_of_In. apply filter_In. Qed.

Lemma nav_channel_id_sound (chans : list Channel)
    (selected_folder_id : option string) (pick : nat) (cid : string) :
  nav_channel_id chans selected_folder_id pick = Some cid ->
  exists c, c ∈ filtered_channels_for_select chans selected_folder_id /\
            c_id c = cid /\
            c_title c = selected_channel_name chans selected_folder_id pick.
Proof.
  unfold nav_channel_id, name_to_id.
  destruct (String.eqb _ "전체 채널"); [done|].
  intros Hkey%first_key_elem%dict_of_elem.
  apply list_elem_of_fmap in Hkey as (c & [= -> Htitle] & Hc).
  by exists c.
Qed.

(** X7. The channel select box offers only channels of the selected
    folder, so although a selected channel takes precedence over the
    folder in the filter, the videos shown with a folder selected are
    always videos of channels of that folder. *)
Theorem nav_selection_stays_in_folder (videos : list Video)
    (chans : list Channel) (selected_folder_id : option string)
    (pick : nat) (fid : string) (v : Video) :
  when_set selected_folder_id = Some fid ->
  v ∈ hierarchical_filter videos chans
        (nav_channel_id chans selected_folder_id pick) selected_folder_id ->
  v ∈ videos /\
  exists c, c ∈ chans /\ c_folder_id c = fid /\ c_id c = v_channel_id v.
Proof.
  intros Hfolder. unfold hierarchical_filter.
  destruct (when_set (nav_channel_id _ _ _)) as [cid|] eqn:Hchannel.
  - apply when_set_inv in Hchannel as [Hnav _].
    apply nav_channel_id_sound in Hnav as (c & Hc & Hid & _).
    unfold filtered_channels_for_select in Hc. rewrite Hfolder in Hc.
    apply elem_of_list_filter in Hc as [Hc Hfid%String.eqb_eq].
    intros [Hv Hcid%String.eqb_eq]%elem_of_list_filter.
    split; [done|]. exists c. split_and!; congruence.
  - rewrite Hfolder.
    intros [Hv Hcid%existsb_eqb_elem_of]%elem_of_list_filter.
    split; [done|].
    apply list_elem_of_fmap in Hcid as (c & Hid & Hc).
    apply elem_of_list_filter in Hc as [Hc Hfid%String.eqb_eq].
    by exists c.
Qed.

Lemma nav_selection_stays_in_folder_witness :
  let chans := [Examples.cycle;
                set_folder_id Examples.second "f-1700000200"] in
  nav_channel_id chans (Some "f-1700000000") 1 = Some "UC1"
  /\ forall v,
       v ∈ hierarchical_filter Examples.sample_videos chans
             (nav_channel_id chans (Some "f-1700000000") 1)
             (Some "f-1700000000") ->
       v ∈ Examples.sample_videos /\
       exists c, c ∈ chans /\ c_folder_id c = "f-1700000000"
                 /\ c_id c = v_channel_id v.
Proof.
  intros chans. split; [reflexivity|]. intros v.
  apply (nav_selection_stays_in_folder Examples.sample_videos chans
           (Some "f-1700000000") 1 "f-1700000000" v).
  reflexivity.
Defined.

(** * Further properties of the channel resolver *)

Section ResolverOutcomes.
Context {Y : Type} {platform : Platform Y}.

Implicit Types (w : World Y) (t : Z) (item : ChannelItem).

Lemma get_youtube_service_true key w w' :
  get_youtube_service key w = (true, w') ->
  ui w' = ui w /\ api_log w' = api_log w.
Proof.
  unfold get_youtube_service.
  destruct (build key (yt w)) as [[e|?] y]; [done|]. by intros [= <-].
Qed.

Lemma get_youtube_service_false key w w' :
  get_youtube_service key w = (false, w') ->
  exists e,
    build key (yt w) = (inl e, yt w') /\
    ui w' = ui w ++ [st_error ("API 연결 실패: " +:+ str_exn e)] /\
    api_log w' = api_log w.
Proof.
  unfold get_youtube_service.
  destruct (build key (yt w)) as [[e|?] y]; [|done]. intros [= <-]. by exists e.
Qed.

Lemma call_channels_ui key q w r w' :
  call_channels key q w = (r, w') -> ui w' = ui w.
Proof.
  unfold call_channels. destruct (channels_list _ _ _) as [r0 y].
  by intros [= <- <-].
Qed.

Lemma call_search_ui key q w r w' :
  call_search key q w = (r, w') -> ui w' = ui w.
Proof.
  unfold call_search. destruct (search_list _ _ _) as [r0 y].
  by intros [= <- <-].
Qed.

Lemma getitem_KeyError {A} (k : string) (o : option A) (e : exn) :
  getitem k o = inl e -> e = KeyError k.
Proof. destruct o; [done|]. by intros [= <-]. Qed.

(** The record can only fail for a missing key. *)
Lemma channel_record_KeyError item fid e :
  channel_record item fid = inl e -> exists k, e = KeyError k.
Proof.
  unfold channel_record.
  repeat match goal with
         | |- context [getitem ?k ?o] =>
             destruct (getitem k o) as [e0|?] eqn:?; cbn [rbind];
             [intros [= <-]; eauto using getitem_KeyError|]
         end.
  done.
Qed.

Lemma channel_record_id item fid c :
  channel_record item fid = inr c -> ci_id item = Some (c_id c).
Proof.
  unfold channel_record. intros H. inv_rbind H. injection H as <-. cbn.
  by destruct (ci_id item); simplify_eq/=.
Qed.

Lemma is_duplicate_KeyError item chans e :
  is_duplicate item chans = inl e -> exists k, e = KeyError k.
Proof.
  unfold is_duplicate. destruct chans; [done|].
  destruct (ci_id item); [done|]. cbn. intros [= <-]. eauto.
Qed.

Lemma is_duplicate_false item chans id :
  is_duplicate item chans = inr false -> ci_id item = Some id ->
  id ∉ (c_id <$> chans).
Proof.
  unfold is_duplicate. destruct chans as [|c0 chans].
  - intros _ _. apply not_elem_of_nil.
  - intros Hdup Hid. rewrite Hid in Hdup. cbn [getitem rbind] in Hdup.
    injection Hdup as Hex. intros (c & -> & Hc)%list_elem_of_fmap.
    apply not_true_iff_false in Hex. apply Hex.
    apply (proj2 (existsb_exists
                    (fun c' => String.eqb (c_id c') (c_id c)) (c0 :: chans))).
    exists c. split; [by apply list_elem_of_In|apply String.eqb_refl].
Qed.

Lemma resolver_post_transfer handled t w w1 x :
  channels w1 = channels w -> folders w1 = folders w ->
  api_key w1 = api_key w -> ui w1 = ui w ->
  resolver_post handled t w1 x -> resolver_post handled t w x.
Proof. unfold resolver_post. by intros -> -> -> ->. Qed.

Lemma resolver_post_weaken t w x :
  resolver_post true t w x -> resolver_post false t w x.
Proof.
  unfold resolver_post. intros (Hc & Hk & Hf & Hr). split_and!; try done.
  destruct x.1 as [e|[c|]]; try done. by destruct Hr.
Qed.

Lemma except_HttpError_post t w x :
  resolver_post false t w x -> resolver_post true t w (except_HttpError x).
Proof.
  destruct x as [[e|o] w']; unfold resolver_post; cbn;
    intros (Hc & Hk & Hf & Hr); [|by split_and!].
  destruct e; cbn; split_and!; try done; try by destruct Hr.
  destruct Hr as [-> _]. by eexists.
Qed.

Lemma register_item_post item t w :
  resolver_post true t w (register_item item t w).
Proof.
  unfold register_item.
  destruct (is_duplicate item (channels w)) as [e|[|]] eqn:Hdup.
  - apply is_duplicate_KeyError in Hdup as [k ->].
    unfold resolver_post. cbn. split_and!; try done; by left.
  - unfold resolver_post. cbn. split_and!; try done; [by left|by eexists].
  - destruct (folders w) as [|f fs] eqn:Hfolders;
      destruct (channel_record item _) as [e|c] eqn:Hrecord;
      unfold resolver_post; cbn; rewrite ?Hfolders; split_and!; try done;
      try (by left); try (by right);
      try (apply channel_record_KeyError in Hrecord as [k ->]; done).
    + eapply is_duplicate_false; [done|by eapply channel_record_id].
    + apply channel_record_folder in Hrecord as ->. left.
    + eapply is_duplicate_false; [done|by eapply channel_record_id].
    + apply channel_record_folder in Hrecord as ->. left.
Qed.

(** Every outcome of the resolver is as [resolver_post] says. *)
Lemma fetch_channel_info_post fuel identifier key t w x :
  fetch_channel_info fuel identifier key t w = Some x ->
  resolver_post true t w x.
Proof.
  revert identifier w x.
  induction fuel as [|fuel IH]; intros identifier w x; [done|].
  cbn [fetch_channel_info].
  destruct (get_youtube_service key w) as [[|] w0] eqn:Hs.
  2:{ intros [= <-].
      pose proof (get_youtube_service_session _ _ _ _ Hs) as (Hc & Hf & Hk).
      apply get_youtube_service_false in Hs as (e & _ & Hui & _).
      unfold resolver_post. cbn. split_and!; try done; [by left|by eexists]. }
  pose proof (get_youtube_service_session _ _ _ _ Hs) as (Hc0 & Hf0 & Hk0).
  apply get_youtube_service_true in Hs as [Hu0 _].
  intros Hx. apply (resolver_post_transfer _ _ _ w0); try done. clear Hc0 Hf0 Hk0 Hu0.
  assert (forall o : option (Result (option Channel) * World Y),
            (forall x0, o = Some x0 -> resolver_post false t w0 x0) ->
            except_HttpError <$> o = Some x -> resolver_post true t w0 x)
    as Hexcept.
  { intros [x0|] Hx0; [|done]. cbn. intros [= <-].
    by apply except_HttpError_post, Hx0. }
  revert Hx. apply Hexcept. clear Hexcept x. intros x.
  destruct (call_channels _ _ _) as [[e|response] w1] eqn:Hcall;
    pose proof (call_channels_session _ _ _ _ _ Hcall) as (Hc1 & Hf1 & Hk1);
    apply call_channels_ui in Hcall as Hu1;
    intros Hx; apply (resolver_post_transfer _ _ _ w1); try done;
    clear Hc1 Hf1 Hk1 Hu1.
  { injection Hx as <-. unfold resolver_post. cbn. split_and!; try done.
    by left. }
  assert (match call_search key identifier w1 with
          | (inl e, w) => Some (inl e, w)
          | (inr search_response, w) =>
              match slr_items search_response with
              | Some (first :: _) =>
                  match (snippet <~ getitem "snippet" (si_snippet first) ;;
                         getitem "channelId" (ss_channelId snippet)) with
                  | inl e => Some (inl e, w)
                  | inr channel_id => fetch_channel_info fuel channel_id key t w
                  end
              | _ => Some (inr None, show (st_error "채널을 찾을 수 없습니다.") w)
              end
          end = Some x -> resolver_post false t w1 x) as Hsearch.
  { destruct (call_search _ _ _) as [[e|sr] w3] eqn:Hq;
      pose proof (call_search_session _ _ _ _ _ Hq) as (Hc3 & Hf3 & Hk3);
      apply call_search_ui in Hq as Hu3;
      intros Hx'; apply (resolver_post_transfer _ _ _ w3); try done.
    { injection Hx' as <-. unfold resolver_post. cbn. split_and!; try done.
      by left. }
    assert (resolver_post false t w3
              (inr None, show (st_error "채널을 찾을 수 없습니다.") w3)) as Hnone.
    { unfold resolver_post. cbn. split_and!; try done; [by left|by eexists]. }
    destruct (slr_items sr) as [[|first rest]|];
      [by injection Hx' as <-| |by injection Hx' as <-].
    destruct (_ <~ _ ;; _) as [e|channel_id].
    - injection Hx' as <-. unfold resolver_post. cbn. split_and!; try done.
      by left.
    - by apply resolver_post_weaken, (IH channel_id). }
  destruct (clr_items response) as [[|item rest]|];
    [by apply Hsearch| |by apply Hsearch].
  injection Hx as <-. apply resolver_post_weaken, register_item_post.
Qed.

End ResolverOutcomes.

Section ResolverGuarantees.
Context {Y : Type} {platform : Platform Y}.

Implicit Types (w : World Y) (t : Z) (item : ChannelItem).

(** X8. Whatever the resolver returns or raises, it leaves the channel
    list and the key as they were, and the folders too, unless there was
    no folder: then it may have created the one default folder. *)
Theorem resolver_session_effect fuel identifier key t w r w' :
  fetch_channel_info fuel identifier key t w = Some (r, w') ->
  channels w' = channels w
  /\ api_key w' = api_key w
  /\ (folders w' = folders w
      \/ (folders w = [] /\
          folders w' = [ {| f_id := folder_stamp t; f_name := "기본 폴더" |} ])).
Proof. by intros (Hc & Hk & Hf & _)%fetch_channel_info_post. Qed.

(** X9. An [HttpError] never leaves the resolver: an exception that does
    leave it is of another kind, and no message was shown for it. *)
Theorem resolver_never_raises_HttpError fuel identifier key t w e w' :
  fetch_channel_info fuel identifier key t w = Some (inl e, w') ->
  (forall m, e <> HttpError m) /\ ui w' = ui w.
Proof.
  intros (_ & _ & _ & Hui & He)%fetch_channel_info_post. split; [|done].
  by apply He.
Qed.

(** X10. The operator is told why an add did not happen: when the
    resolver returns [None] it has shown exactly one more message, an
    error or a warning; when it returns a channel it has shown none. *)
Theorem resolver_feedback fuel identifier key t w o w' :
  fetch_channel_info fuel identifier key t w = Some (inr o, w') ->
  match o with
  | None =>
      exists m, ui w' = ui w ++ [m] /\
                exists s, m = st_error s \/ m = st_warning s
  | Some _ => ui w' = ui w
  end.
Proof.
  intros (_ & _ & _ & Hr)%fetch_channel_info_post. cbn in Hr.
  destruct o as [c|]; [by destruct Hr|].
  destruct Hr as (m & Hui & Hm). exists m. split; [done|].
  destruct m as [s|s|s]; [by exists s; left|by exists s; right|].
  by destruct (Hm s).
Qed.

(** X11. A channel the resolver returns is new and placed: its id is not
    the id of a channel of the session, and its [folder_id] is the id of
    a folder of the session as the call leaves it. *)
Theorem resolver_channel_is_new fuel identifier key t w c w' :
  fetch_channel_info fuel identifier key t w = Some (inr (Some c), w') ->
  (c_id c ∉ (c_id <$> channels w))
  /\ (c_folder_id c ∈ (f_id <$> folders w')).
Proof. by intros (_ & _ & _ & _ & Hid & Hfolder)%fetch_channel_info_post. Qed.

(** X12. The default folder is created before the record is built: when
    the item found lacks a field of the record and there was no folder,
    the resolver raises the [KeyError] and the session keeps the new
    default folder, without any channel in it. *)
Theorem default_folder_survives_failed_record key n identifier w item w1 t
    fuel e :
  resolves key n identifier w item w1 ->
  (n < fuel)%nat ->
  is_duplicate item (channels w) = inr false ->
  folders w = [] ->
  channel_record item (folder_stamp t) = inl e ->
  exists w2,
    fetch_channel_info fuel identifier key t w = Some (inl e, w2)
    /\ folders w2 = [ {| f_id := folder_stamp t; f_name := "기본 폴더" |} ]
    /\ channels w2 = channels w.
Proof.
  intros Hres Hfuel Hdup Hnil Hrecord.
  rewrite (fetch_channel_info_resolves _ _ _ _ _ _ t Hres) by done.
  apply resolves_session in Hres as (Hchans & Hfolders & _).
  unfold register_item. rewrite Hchans, Hdup, Hfolders, Hnil.
  change ("f-" +:+ pretty t) with (folder_stamp t). rewrite Hrecord.
  apply channel_record_KeyError in Hrecord as [k ->]. cbn.
  eexists. split; [done|]. cbn. by rewrite Hfolders, Hnil, Hchans.
Qed.

End ResolverGuarantees.

Lemma resolver_session_effect_witness :
  exists r w',
    fetch_channel_info 1 "@cycle" "key" 1700000000
      (start Examples.cycle_script "key") = Some (r, w')
    /\ channels w' = []
    /\ folders w' = [ {| f_id := "f-1700000000"; f_name := "기본 폴더" |} ].
Proof.
  assert (exists r w',
            fetch_channel_info 1 "@cycle" "key" 1700000000
              (start Examples.cycle_script "key") = Some (r, w'))
    as (r & w' & Hfetch) by (eexists _, _; vm_compute; reflexivity).
  destruct (resolver_session_effect _ _ _ _ _ _ _ Hfetch)
    as (Hchans & _ & [Hsame|[_ Hnew]]).
  - exfalso. revert Hsame. vm_compute in Hfetch. injection Hfetch as _ <-.
    discriminate.
  - exists r, w'. split_and!; done.
Defined.

Lemma resolver_never_raises_HttpError_witness :
  exists e w',
    fetch_channel_info 1 "@bare" "key" 1700000000
      (start MoreExamples.bare_script "key") = Some (inl e, w')
    /\ (forall m, e <> HttpError m)
    /\ ui w' = [].
Proof.
  assert (exists e w',
            fetch_channel_info 1 "@bare" "key" 1700000000
              (start MoreExamples.bare_script "key") = Some (inl e, w'))
    as (e & w' & Hfetch) by (eexists _, _; vm_compute; reflexivity).
  destruct (resolver_never_raises_HttpError _ _ _ _ _ _ _ Hfetch) as [He Hui].
  exists e, w'. split_and!; done.
Defined.

Lemma resolver_feedback_witness :
  (exists w' m,
     fetch_channel_info 1 "UCnone" "key" 1700000000
       (start MoreExamples.bare_script "key") = Some (inr None, w')
     /\ ui w' = [m])
  /\ (exists c w',
        fetch_channel_info 1 "@cycle" "key" 1700000000
          (start Examples.cycle_script "key") = Some (inr (Some c), w')
        /\ ui w' = []).
Proof.
  split.
  - assert (exists w',
              fetch_channel_info 1 "UCnone" "key" 1700000000
                (start MoreExamples.bare_script "key") = Some (inr None, w'))
      as (w' & Hfetch) by (eexists; vm_compute; reflexivity).
    destruct (resolver_feedback _ _ _ _ _ _ _ Hfetch) as (m & Hui & _).
    by exists w', m.
  - assert (exists c w',
              fetch_channel_info 1 "@cycle" "key" 1700000000
                (start Examples.cycle_script "key") = Some (inr (Some c), w'))
      as (c & w' & Hfetch) by (eexists _, _; vm_compute; reflexivity).
    pose proof (resolver_feedback _ _ _ _ _ _ _ Hfetch) as Hui.
    by exists c, w'.
Defined.

Lemma resolver_channel_is_new_witness :
  exists c w',
    fetch_channel_info 1 "@cycle" "key" 1700000300 Examples.two_folders
    = Some (inr (Some c), w')
    /\ (c_id c ∉ (c_id <$> channels Examples.two_folders))
    /\ (c_folder_id c ∈ (f_id <$> folders w')).
Proof.
  assert (exists c w',
            fetch_channel_info 1 "@cycle" "key" 1700000300 Examples.two_folders
            = Some (inr (Some c), w'))
    as (c & w' & Hfetch) by (eexists _, _; vm_compute; reflexivity).
  destruct (resolver_channel_is_new _ _ _ _ _ _ _ Hfetch) as [Hid Hfolder].
  by exists c, w'.
Defined.

Lemma default_folder_survives_failed_record_witness :
  exists w2,
    fetch_channel_info 1 "@bare" "key" 1700000000
      (start MoreExamples.bare_script "key")
    = Some (inl (KeyError "contentDetails"), w2)
    /\ folders w2 = [ {| f_id := "f-1700000000"; f_name := "기본 폴더" |} ]
    /\ channels w2 = [].
Proof.
  assert (exists w1,
            resolves "key" 0 "@bare" (start MoreExamples.bare_script "key")
                     MoreExamples.bare_item w1) as (w1 & Hres).
  { eexists. eapply resolves_direct; reflexivity. }
  destruct (default_folder_survives_failed_record "key" 0 "@bare" _ _ _
              1700000000 1 (KeyError "contentDetails") Hres (le_n 1)
              eq_refl eq_refl eq_refl) as (w2 & Hfetch & Hfolders & Hchans).
  by exists w2.
Defined.

(** * Invariants of the session under clicks *)

Lemma last_key_elem (name : string) (d : Dict) (k : string) :
  last_key name d = Some k -> (k, name) ∈ d.
Proof.
  induction d as [|[k' v'] d IH]; cbn; [done|].
  destruct (last_key name d) as [k0|].
  - intros [= ->]. right. by apply IH.
  - destruct (String.eqb_spec v' name) as [->|_]; [|done]. intros [= ->]. left.
Qed.

Lemma last_key_None (name : string) (d : Dict) :
  name ∉ d.*2 -> last_key name d = None.
Proof.
  induction d as [|[k' v'] d IH]; cbn; [done|].
  intros [Hne Hd]%not_elem_of_cons. rewrite (IH Hd).
  by destruct (String.eqb_spec v' name).
Qed.

(** The last pair with the name decides. *)
Lemma last_key_back (name k : string) (d1 d2 : Dict) :
  name ∉ d2.*2 -> last_key name (d1 ++ (k, name) :: d2) = Some k.
Proof.
  intros Hd2. induction d1 as [|[k' v'] d1 IH]; cbn.
  - by rewrite (last_key_None _ _ Hd2), String.eqb_refl.
  - by rewrite IH.
Qed.

Lemma selected_folder_for_add_eq (fs : list Folder) (pick : option nat) :
  selected_folder_for_add fs pick = selectbox_format (folder_options fs) pick.
Proof. unfold selected_folder_for_add. by destruct (folder_options fs). Qed.

Lemma selected_folder_for_add_elem (fs : list Folder) (pick : option nat)
    (fid : string) :
  selected_folder_for_add fs pick = Some fid -> fid ∈ (f_id <$> fs).
Proof.
  rewrite selected_folder_for_add_eq. intros Hsel.
  assert (exists name, (fid, name) ∈ folder_options fs) as [name Hin].
  { destruct (folder_options fs) as [|[k v] d]; [done|].
    cbn [selectbox_format] in Hsel. destruct pick as [i|].
    - eexists. by apply last_key_elem in Hsel.
    - injection Hsel as <-. exists v. left. }
  apply dict_of_elem, list_elem_of_fmap in Hin as (f & [= -> _] & Hf).
  by apply list_elem_of_fmap_2.
Qed.

Lemma selectbox_format_picked (d d1 d2 : Dict) (i : nat) (k name : string) :
  d.*2 !! i = Some name ->
  d = d1 ++ (k, name) :: d2 ->
  name ∉ d2.*2 ->
  selectbox_format d (Some i) = Some k.
Proof.
  intros Hi Hd Hd2. destruct d as [|[k0 v0] d']; [by destruct d1|].
  cbn [selectbox_format]. rewrite (nth_lookup_Some _ _ v0 _ Hi), Hd.
  by apply last_key_back.
Qed.

Section SessionInvariants.
Context {Y : Type} {platform : Platform Y}.

Implicit Types (w : World Y) (t : Z).

Lemma add_channel_click_post fuel new_channel_id pick t w r w' :
  add_channel_click fuel new_channel_id pick t w = Some (r, w') ->
  click_post w w'.
Proof.
  unfold add_channel_click, click_post.
  destruct (String.eqb (api_key w) "");
    [intros [= _ <-]; cbn; split_and!; [done|reflexivity|by left]|].
  destruct (String.eqb new_channel_id ""); cbn [negb];
    [intros [= _ <-]; split_and!; [done|reflexivity|by left]|].
  destruct (fetch_channel_info _ _ _ _ _) as [[r1 w1]|] eqn:Hfetch; [|done].
  apply fetch_channel_info_post in Hfetch as (Hc & Hk & Hf & Hr). cbn in *.
  assert (folders w `prefix_of` folders w1) as Hprefix.
  { destruct Hf as [->|[-> ->]]; [done|]. by eexists. }
  destruct r1 as [e|[c|]]; intros [= _ <-]; cbn;
    [split_and!; [done|done|by left]| |split_and!; [done|done|by left]].
  destruct Hr as (_ & Hnew & Hplaced). split_and!; [done..|].
  right. eexists. rewrite Hc. split; [done|].
  destruct (selected_folder_for_add (folders w) pick) as [fid|] eqn:Hsel;
    [destruct (truthy (Some fid))|]; cbn; split; try done.
  apply selected_folder_for_add_elem in Hsel.
  destruct Hprefix as [fs' ->].
  rewrite fmap_app. apply elem_of_app. by left.
Qed.

Lemma click_click_post w (c : Click) w' : click w c = Some w' -> click_post w w'.
Proof.
  destruct c as [new_folder t|fuel new_channel_id pick t]; cbn.
  - intros [= <-]. unfold add_folder_click, click_post.
    destruct (String.eqb new_folder ""); cbn;
      (split_and!; [done|by eexists|by left]) ||
      (split_and!; [done|reflexivity|by left]).
  - destruct (add_channel_click _ _ _ _ _) as [[r w1]|] eqn:Hadd; [|done].
    intros [= <-]. by eapply add_channel_click_post.
Qed.

Lemma run_clicks_ind (P : World Y -> Prop) (cs : list Click) w w' :
  (forall w1 w2, P w1 -> click_post w1 w2 -> P w2) ->
  run_clicks cs w = Some w' -> P w -> P w'.
Proof.
  intros Hstep. revert w. induction cs as [|c cs IH]; intros w; cbn.
  - by intros [= <-].
  - destruct (click w c) as [w1|] eqn:Hclick; [|done].
    intros Hrun Hw. apply (IH w1 Hrun). eapply Hstep; [exact Hw|].
    by eapply click_click_post.
Qed.

(** X14. Channel ids stay distinct: no sequence of clicks on the two add
    buttons puts a second channel with an id already tracked into the
    session. *)
Theorem channel_ids_stay_unique (cs : list Click) w w' :
  run_clicks cs w = Some w' ->
  NoDup (c_id <$> channels w) ->
  NoDup (c_id <$> channels w').
Proof.
  intros Hrun.
  apply (run_clicks_ind (fun w => NoDup (c_id <$> channels w)) cs w w');
    [|done].
  intros w1 w2 Hnd (_ & _ & [->|(ch & -> & Hnew & _)]); [done|].
  rewrite fmap_app. apply NoDup_app. split; [done|]. split.
  - by intros id Hid ->%list_elem_of_singleton.
  - apply NoDup_singleton.
Qed.

(** X15. Every channel keeps pointing at an existing folder: if the
    [folder_id] of each channel is the id of a folder of the session, it
    is still so after any sequence of clicks on the two add buttons. *)
Theorem channels_reference_folders (cs : list Click) w w' :
  run_clicks cs w = Some w' ->
  (forall ch, ch ∈ channels w -> c_folder_id ch ∈ (f_id <$> folders w)) ->
  (forall ch, ch ∈ channels w' -> c_folder_id ch ∈ (f_id <$> folders w')).
Proof.
  intros Hrun.
  apply (run_clicks_ind
           (fun w => forall ch, ch ∈ channels w ->
                                c_folder_id ch ∈ (f_id <$> folders w))
           cs w w'); [|done].
  intros w1 w2 Hinv (_ & [fs' Hfs] & Hchans) ch Hch.
  assert (forall id, id ∈ (f_id <$> folders w1) -> id ∈ (f_id <$> folders w2))
    as Hgrow.
  { intros id Hid. rewrite Hfs, fmap_app. apply elem_of_app. by left. }
  destruct Hchans as [Heq|(ch' & Heq & _ & Hplaced)]; rewrite Heq in Hch.
  - by apply Hgrow, Hinv.
  - apply elem_of_app in Hch as [Hch| ->%list_elem_of_singleton]; [|done].
    by apply Hgrow, Hinv.
Qed.

(** X18. The session only grows: after any sequence of clicks on the two
    add buttons the old channels and the old folders are still there, in
    the same order, at the front of the lists, and the key is the same. *)
Theorem session_only_grows (cs : list Click) w w' :
  run_clicks cs w = Some w' ->
  channels w `prefix_of` channels w'
  /\ folders w `prefix_of` folders w'
  /\ api_key w' = api_key w.
Proof.
  intros Hrun.
  apply (run_clicks_ind
           (fun w1 => channels w `prefix_of` channels w1
                      /\ folders w `prefix_of` folders w1
                      /\ api_key w1 = api_key w) cs w w'); [|done|done].
  intros w1 w2 (Hc & Hf & Hk) (Hk' & Hf' & Hc'). split_and!.
  - destruct Hc' as [->|(ch & -> & _)]; [done|].
    etrans; [exact Hc|]. by eexists.
  - by etrans.
  - congruence.
Qed.

(** X17. With folders in the session, the entry picked in the select box
    of the add form wins over the resolver's default. The box leads from
    the name picked back to a folder: the channel is appended with the id
    of the last folder that has the name of the entry picked, which is
    the folder picked itself when no later folder shares its name (folder
    ids being distinct and non-empty). *)
Theorem picked_folder_overrides fuel identifier (i : nat) t w c w2
    (f f' : Folder) (l1 l2 : list Folder) :
  fetch_channel_info fuel identifier (api_key w) t w = Some (inr (Some c), w2) ->
  api_key w <> "" ->
  identifier <> "" ->
  NoDup (f_id <$> folders w) ->
  folders w !! i = Some f ->
  folders w = l1 ++ f' :: l2 ->
  f_name f' = f_name f ->
  (f_name f ∉ (f_name <$> l2)) ->
  f_id f' <> "" ->
  exists w3,
    add_channel_click fuel identifier (Some i) t w = Some (inr tt, w3)
    /\ channels w3 = channels w ++ [set_folder_id c (f_id f')]
    /\ folders w3 = folders w.
Proof.
  intros Hfetch Hkey Hid Hnd Hpick Hsplit Hname Hlast Hfid.
  pose proof (fetch_channel_info_post _ _ _ _ _ _ Hfetch)
    as (Hchans & _ & Hfolders & _). cbn in Hchans, Hfolders.
  assert (folders w2 = folders w) as Hsame.
  { destruct Hfolders as [|[Hnil _]]; [done|]. by rewrite Hnil in Hpick. }
  assert (selected_folder_for_add (folders w) (Some i) = Some (f_id f')) as Hsel.
  { rewrite selected_folder_for_add_eq. unfold folder_options.
    rewrite dict_of_NoDup by (by rewrite <- list_fmap_compose).
    apply (selectbox_format_picked _
             ((fun f => (f_id f, f_name f)) <$> l1)
             ((fun f => (f_id f, f_name f)) <$> l2) _ _ (f_name f)).
    - by rewrite <- list_fmap_compose, list_lookup_fmap, Hpick.
    - by rewrite Hsplit, fmap_app, fmap_cons, Hname.
    - by rewrite <- list_fmap_compose. }
  unfold add_channel_click. rewrite Hsel, Hfetch.
  destruct (String.eqb_spec (api_key w) ""); [done|].
  destruct (String.eqb_spec identifier ""); [done|]. cbn [negb].
  rewrite truthy_Some by done.
  eexists. split; [reflexivity|]. cbn. by rewrite Hchans, Hsame.
Qed.

End SessionInvariants.

Lemma fetch_channel_info_registers_witness :
  exists w2,
    fetch_channel_info 2 "cycle tv" "key" 1700000300 Examples.two_folders
    = Some (inr (Some (set_folder_id Examples.cycle "f-1700000100")), w2).
Proof.
  assert (exists w1,
            resolves "key" 1 "cycle tv" Examples.two_folders
                     Examples.cycle_item w1) as (w1 & Hres).
  { eexists. eapply resolves_hop.
    - reflexivity.
    - reflexivity.
    - reflexivity.
    - reflexivity.
    - reflexivity.
    - reflexivity.
    - reflexivity.
    - eapply resolves_direct; reflexivity. }
  apply (fetch_channel_info_registers "key" 1 "cycle tv" Examples.two_folders
           Examples.cycle_item w1 1700000300 2 _ Hres (le_n 2));
    reflexivity.
Defined.

(** The clicks of the witnesses below: a channel, a folder, the same
    channel again by its id, and another folder. *)
Lemma session_witness_run :
  exists w',
    run_clicks [click_add_channel 1 "@cycle" None 1700000000;
                click_add_folder "Road" 1700000003;
                click_add_channel 1 "UC1" (Some 1) 1700000005;
                click_add_folder "Track" 1700000009]
               (start Examples.cycle_script "key") = Some w'.
Proof. eexists. vm_compute. reflexivity. Defined.

Lemma channel_ids_stay_unique_witness :
  exists w',
    run_clicks [click_add_channel 1 "@cycle" None 1700000000;
                click_add_folder "Road" 1700000003;
                click_add_channel 1 "UC1" (Some 1) 1700000005;
                click_add_folder "Track" 1700000009]
               (start Examples.cycle_script "key") = Some w'
    /\ NoDup (c_id <$> channels w').
Proof.
  destruct session_witness_run as [w' Hrun]. exists w'. split; [done|].
  apply (channel_ids_stay_unique _ _ _ Hrun). apply NoDup_nil_2.
Defined.

Lemma channels_reference_folders_witness :
  exists w',
    run_clicks [click_add_channel 1 "@cycle" None 1700000000;
                click_add_folder "Road" 1700000003;
                click_add_channel 1 "UC1" (Some 1) 1700000005;
                click_add_folder "Track" 1700000009]
               (start Examples.cycle_script "key") = Some w'
    /\ forall ch, ch ∈ channels w' -> c_folder_id ch ∈ (f_id <$> folders w').
Proof.
  destruct session_witness_run as [w' Hrun]. exists w'. split; [done|].
  apply (channels_reference_folders _ _ _ Hrun).
  intros ch Hch. by apply elem_of_nil in Hch.
Defined.

Lemma session_only_grows_witness :
  exists w',
    run_clicks [click_add_folder "Track" 1700000400;
                click_add_channel 1 "@cycle" (Some 1) 1700000401]
               Examples.two_folders = Some w'
    /\ channels Examples.two_folders `prefix_of` channels w'
    /\ folders Examples.two_folders `prefix_of` folders w'
    /\ api_key w' = "key".
Proof.
  assert (exists w',
            run_clicks [click_add_folder "Track" 1700000400;
                        click_add_channel 1 "@cycle" (Some 1) 1700000401]
                       Examples.two_folders = Some w')
    as [w' Hrun] by (eexists; vm_compute; reflexivity).
  exists w'. split; [done|]. apply (session_only_grows _ _ _ Hrun).
Defined.

Lemma folder_ids_unique_when_clock_advances_witness :
  exists w',
    run_clicks [click_add_channel 1 "@cycle" None 1700000000;
                click_add_folder "Road" 1700000003;
                click_add_channel 1 "UC1" (Some 1) 1700000005;
                click_add_folder "Track" 1700000009]
               (start Examples.cycle_script "key") = Some w'
    /\ NoDup (f_id <$> folders w').
Proof.
  destruct session_witness_run as [w' Hrun]. exists w'. split; [done|].
  apply (folder_ids_unique_when_clock_advances _ _ _ Hrun); [reflexivity|].
  cbn [fmap list_fmap click_time].
  repeat first [apply SSorted_nil | apply SSorted_cons
               | apply List.Forall_nil | apply List.Forall_cons
               | reflexivity].
Defined.

(** Of the folders "Road", "Track", "Road", the first is picked: the
    channel goes into the third. With the two folders "Road", "Track",
    the second is picked and the channel goes there. *)
Lemma picked_folder_overrides_witness :
  (exists c w3,
     add_channel_click 1 "@cycle" (Some 0%nat) 1700000400
       MoreExamples.same_name_folders = Some (inr tt, w3)
     /\ channels w3 = [c]
     /\ c_folder_id c = "f-1700000300"
     /\ folders w3 = folders MoreExamples.same_name_folders)
  /\ (exists c w3,
        add_channel_click 1 "@cycle" (Some 1%nat) 1700000300
          Examples.two_folders = Some (inr tt, w3)
        /\ channels w3 = [c]
        /\ c_folder_id c = "f-1700000200"
        /\ folders w3 = folders Examples.two_folders).
Proof.
  split.
  - assert (exists c w2,
              fetch_channel_info 1 "@cycle"
                (api_key MoreExamples.same_name_folders) 1700000400
                MoreExamples.same_name_folders = Some (inr (Some c), w2))
      as (c & w2 & Hfetch) by (eexists _, _; vm_compute; reflexivity).
    destruct (picked_folder_overrides 1 "@cycle" 0 1700000400
                MoreExamples.same_name_folders c w2
                {| f_id := "f-1700000100"; f_name := "Road" |}
                {| f_id := "f-1700000300"; f_name := "Road" |}
                [ {| f_id := "f-1700000100"; f_name := "Road" |};
                  {| f_id := "f-1700000200"; f_name := "Track" |} ] []
                Hfetch)
      as (w3 & Hadd & Hchans & Hfolders).
    + discriminate.
    + discriminate.
    + apply (bool_decide_unpack _). vm_compute. exact I.
    + reflexivity.
    + reflexivity.
    + reflexivity.
    + apply not_elem_of_nil.
    + discriminate.
    + exists (set_folder_id c "f-1700000300"), w3. split_and!; done.
  - assert (exists c w2,
              fetch_channel_info 1 "@cycle" (api_key Examples.two_folders)
                1700000300 Examples.two_folders = Some (inr (Some c), w2))
      as (c & w2 & Hfetch) by (eexists _, _; vm_compute; reflexivity).
    destruct (picked_folder_overrides 1 "@cycle" 1 1700000300
                Examples.two_folders c w2
                {| f_id := "f-1700000200"; f_name := "Track" |}
                {| f_id := "f-1700000200"; f_name := "Track" |}
                [ {| f_id := "f-1700000100"; f_name := "Road" |} ] []
                Hfetch)
      as (w3 & Hadd & Hchans & Hfolders).
    + discriminate.
    + discriminate.
    + apply (bool_decide_unpack _). vm_compute. exact I.
    + reflexivity.
    + reflexivity.
    + reflexivity.
    + apply not_elem_of_nil.
    + discriminate.
    + exists (set_folder_id c "f-1700000200"), w3. split_and!; done.
Defined.

(** * Further properties of the video aggregator *)

Section AggregatorGuarantees.
Context {lib : PyLib} {Y : Type} {platform : Platform Y}.

Implicit Types (w : World Y) (v : Video) (channel : Channel).










(** *** The window, exactly *)

Lemma window_step_exact owa ids item ids' :
  window_step owa ids item = inr ids' ->
  forall videoId, videoId ∈ ids' <-> videoId ∈ ids \/ in_window owa item videoId.
Proof.
  unfold window_step, in_window.
  destruct (pi_snippet item) as [snippet|] eqn:Hs; [|done]. cbn.
  destruct (ps_publishedAt snippet) as [text|] eqn:Ht; [|done]. cbn.
  destruct (fromisoformat (replace_Z text)) as [?|published_at] eqn:Hp; [done|].
  cbn. destruct (owa <=? _)%Z eqn:Hle.
  - destruct (pi_contentDetails item) as [cd|] eqn:Hcd; [|done]. cbn.
    destruct (pcd_videoId cd) as [videoId0|] eqn:Hid; [|done]. cbn.
    intros [= <-] videoId. rewrite elem_of_app, list_elem_of_singleton.
    apply Z.leb_le in Hle. split.
    + intros [?| ->]; [by left|right].
      exists snippet, text, published_at, cd. split_and!; done.
    + intros [?|(? & ? & ? & ? & ? & ? & ? & _ & ? & ?)]; [by left|right].
      congruence.
  - intros [= <-] videoId. split; [by left|].
    intros [?|(sn & tx & dt & ? & Hs' & Ht' & Hp' & Hle' & _)]; [done|].
    assert (sn = snippet) as -> by congruence.
    assert (tx = text) as -> by congruence.
    assert (dt = published_at) as -> by congruence.
    apply Z.leb_gt in Hle. cbn in *. lia.
Qed.

(** X21. When the window filter runs through the feed without raising,
    the ids it keeps are exactly the video ids of the feed items whose
    [publishedAt], made naive, is not before the window: none of those is
    dropped and no other is kept. *)
Theorem window_ids_exact owa items ids :
  window_ids owa items [] = inr ids ->
  forall videoId,
    videoId ∈ ids <-> exists item, item ∈ items /\ in_window owa item videoId.
Proof.
  cut (forall acc ids,
         window_ids owa items acc = inr ids ->
         forall videoId,
           videoId ∈ ids <->
           videoId ∈ acc \/ exists item, item ∈ items /\ in_window owa item videoId).
  { intros H Hids videoId. rewrite (H [] ids Hids videoId). split.
    - intros [Hnil|?]; [by apply elem_of_nil in Hnil|done].
    - by right. }
  clear ids. induction items as [|item items IH]; intros acc ids; cbn.
  - intros [= <-] videoId. split; [by left|].
    intros [?|(item & Hin & _)]; [done|]. by apply elem_of_nil in Hin.
  - destruct (window_step owa acc item) as [?|acc1] eqn:Hstep; [done|]. cbn.
    intros Hids videoId.
    rewrite (IH acc1 ids Hids videoId), (window_step_exact _ _ _ _ Hstep videoId).
    split.
    + intros [[?|Hin]|(it & Hit & Hin)]; [by left| |].
      * right. exists item. split; [left|done].
      * right. exists it. split; [by right|done].
    + intros [?|(it & [->|Hit]%elem_of_cons & Hin)].
      * left. by left.
      * left. by right.
      * right. by exists it.
Qed.

End AggregatorGuarantees.

Lemma window_ids_exact_witness :
  let one_week_ago := (Examples.now - timedelta_days 7)%Z in
  let items := [Examples.feed_item "2024-01-10T00:00:00Z" "v1";
                Examples.feed_item "2024-01-05T00:00:00Z" "v2";
                Examples.feed_item "2024-01-01T00:00:00Z" "v3"] in
  (exists item, item ∈ items /\ in_window one_week_ago item "v2")
  /\ ~ (exists item, item ∈ items /\ in_window one_week_ago item "v3").
Proof.
  intros one_week_ago items.
  assert (window_ids one_week_ago items [] = inr ["v1"; "v2"]) as Hids
    by (vm_compute; reflexivity).
  pose proof (window_ids_exact one_week_ago items _ Hids) as Hexact.
  split.
  - apply Hexact. right. left.
  - intros Hv3%Hexact.
    apply elem_of_cons in Hv3 as [Hv3|Hv3]; [discriminate|].
    apply elem_of_cons in Hv3 as [Hv3|Hv3]; [discriminate|].
    by apply elem_of_nil in Hv3.
Defined.

Section VideoRecords.
Context {lib : PyLib} {Y : Type} {platform : Platform Y}.

Implicit Types (w : World Y) (v : Video) (channel : Channel).

Lemma int_get_missing (n : Z) : int_get None = inr n -> n = 0%Z.
Proof. by intros [= <-]. Qed.

(** X23. A video record is built only from a detail record whose
    thumbnails have the ['default'] entry, also when ['medium'] is there
    and is the one used; a count that the statistics lack is 0. Without
    ['default'] the record raises. *)
Theorem make_video_fallbacks channel item :
  (forall v,
     make_video channel item = inr v ->
     exists snippet thumbnails fallback statistics,
       vi_snippet item = Some snippet /\
       vs_thumbnails snippet = Some thumbnails /\
       thumbnails !! "default" = Some fallback /\
       th_url (default fallback (thumbnails !! "medium")) = Some (v_thumbnail v) /\
       vi_statistics item = Some statistics /\
       (vst_viewCount statistics = None -> v_view_count v = 0%Z) /\
       (vst_likeCount statistics = None -> v_like_count v = 0%Z) /\
       (vst_commentCount statistics = None -> v_comment_count v = 0%Z))
  /\ (forall snippet thumbnails,
        vi_snippet item = Some snippet ->
        vs_thumbnails snippet = Some thumbnails ->
        thumbnails !! "default" = None ->
        exists e, make_video channel item = inl e).
Proof.
  assert (forall v,
     make_video channel item = inr v ->
     exists snippet thumbnails fallback statistics,
       vi_snippet item = Some snippet /\
       vs_thumbnails snippet = Some thumbnails /\
       thumbnails !! "default" = Some fallback /\
       th_url (default fallback (thumbnails !! "medium")) = Some (v_thumbnail v) /\
       vi_statistics item = Some statistics /\
       (vst_viewCount statistics = None -> v_view_count v = 0%Z) /\
       (vst_likeCount statistics = None -> v_like_count v = 0%Z) /\
       (vst_commentCount statistics = None -> v_comment_count v = 0%Z)) as Hfields.
  { intros v Hv. unfold make_video in Hv. inv_rbind Hv. injection Hv as <-. cbn.
    repeat match goal with
           | H : getitem _ ?o = inr _ |- _ =>
               destruct o eqn:?; cbn in H; [injection H as ->|discriminate H]
           end.
    eexists _, _, _, _. split_and!; try done.
    - intros Hnone. rewrite Hnone in *. by eapply int_get_missing.
    - intros Hnone. rewrite Hnone in *. by eapply int_get_missing.
    - intros Hnone. rewrite Hnone in *. by eapply int_get_missing. }
  split; [exact Hfields|].
  intros snippet thumbnails Hs Ht Hnone.
  destruct (make_video channel item) as [e|v] eqn:Hv; [by exists e|].
  destruct (Hfields v eq_refl) as (sn & th & fb & _ & Hs' & Ht' & Hd & _).
  congruence.
Qed.

Lemma make_video_origin channel item v :
  make_video channel item = inr v ->
  v_channel_id v = c_id channel
  /\ v_channel_title v = c_title channel
  /\ vi_id item = Some (v_id v)
  /\ v_url v = "https://www.youtube.com/watch?v=" +:+ v_id v.
Proof.
  unfold make_video. intros Hv. inv_rbind Hv. injection Hv as <-. cbn.
  split_and!; try done.
  by repeat match goal with
            | H : getitem "id" ?o = inr _ |- _ =>
                destruct o; cbn in H; simplify_eq
            end.
Qed.

(** Every video the body returns belongs to one of the channels it was
    called with. *)
Lemma get_recent_videos_belongs chans key now w :
  Forall (belongs_to chans) (get_recent_videos chans key now w).1.
Proof.
  apply Forall_forall. intros v Hv.
  destruct (get_recent_videos_fetched chans key now w) as (new & _ & Hall).
  rewrite Forall_forall in Hall.
  destruct (Hall v Hv)
    as (channel & _ & _ & _ & _ & item & Hc & _ & _ & _ & _ & _ & Hmake).
  apply make_video_origin in Hmake as (Hid & Htitle & _ & Hurl).
  split; [by exists channel|done].
Qed.

Lemma belongs_to_mono (chans all : list Channel) v :
  chans ⊆ all -> belongs_to chans v -> belongs_to all v.
Proof.
  intros Hsub [(channel & Hin & Hid & Htitle) Hurl].
  split; [|done]. exists channel. split; [by apply Hsub|done].
Qed.

(** X22. Where the videos of the aggregator come from. When the cache
    has no live entry for the key, every video returned belongs to one of
    the channels of the call: it carries that channel's id and title, and
    its link is the watch address of its own id. With a live entry the
    list is the one an earlier call has fetched, for the channels of that
    call. So when the cached lists and the channels of the call all come
    from one list of channels [all], every video returned belongs to a
    channel of [all], and the cached lists afterwards still come from
    [all]. *)
Theorem videos_belong_to_channels (cache : gmap string CacheEntry)
    (clock stored_at : Q) chans key now w (all : list Channel) :
  chans ⊆ all ->
  cache_within all cache ->
  let r := cached_get_recent_videos cache clock stored_at chans key now w in
  (cache_lookup cache key clock = None -> Forall (belongs_to chans) r.1.1)
  /\ Forall (belongs_to all) r.1.1
  /\ cache_within all r.1.2.
Proof.
  intros Hsub Hcache. unfold cached_get_recent_videos, cache_lookup.
  pose proof (get_recent_videos_belongs chans key now w) as Hbody.
  assert (Forall (belongs_to all) (get_recent_videos chans key now w).1)
    as Hbody_all.
  { eapply Forall_impl; [exact Hbody|]. intros v. by apply belongs_to_mono. }
  assert (forall videos w' expires messages,
            get_recent_videos chans key now w = (videos, w') ->
            cache_within all
              (<[key := mk_entry expires videos messages]> cache)) as Hstore.
  { intros videos w' expires messages Heq key' e.
    destruct (decide (key = key')) as [<-|Hne].
    - rewrite lookup_insert_eq. intros [= <-]. cbn. by rewrite Heq in Hbody_all.
    - rewrite lookup_insert_ne by done. apply Hcache. }
  destruct (cache !! key) as [e|] eqn:He.
  - destruct (Qltb clock (ce_expires e)).
    + cbn [fst snd]. split_and!; [done| |done]. by apply (Hcache key).
    + destruct (get_recent_videos chans key now w) as [videos w'] eqn:Heq.
      cbn [fst snd] in *. split_and!; [done|done|by eapply Hstore].
  - destruct (get_recent_videos chans key now w) as [videos w'] eqn:Heq.
    cbn [fst snd] in *. split_and!; [done|done|by eapply Hstore].
Qed.

(** X24. While the service cannot be built, the session is inert to
    requests: no sequence of clicks adds a channel or executes a request,
    and the aggregator returns no video without executing one. *)
Theorem offline_session_is_inert (cs : list Click) w w' :
  (forall key y, exists e y', build key y = (inl e, y')) ->
  run_clicks cs w = Some w' ->
  api_log w' = api_log w
  /\ channels w' = channels w
  /\ forall chans key now,
       (get_recent_videos chans key now w').1 = []
       /\ api_log (get_recent_videos chans key now w').2 = api_log w'.
Proof.
  intros Hoffline Hrun.
  assert (forall key w0, exists w1,
            get_youtube_service key w0 = (false, w1) /\
            api_log w1 = api_log w0 /\ channels w1 = channels w0) as Hservice.
  { intros key w0. unfold get_youtube_service.
    destruct (Hoffline key (yt w0)) as (e & y' & ->). by eexists. }
  assert (forall (c : Click) w0 w1,
            click w0 c = Some w1 ->
            api_log w1 = api_log w0 /\ channels w1 = channels w0) as Hclick.
  { intros [new_folder t|fuel new_channel_id pick t] w0 w1; cbn.
    - intros [= <-]. unfold add_folder_click.
      by destruct (String.eqb new_folder "").
    - unfold add_channel_click.
      destruct (String.eqb (api_key w0) ""); [by intros [= <-]|].
      destruct (String.eqb new_channel_id ""); cbn [negb]; [by intros [= <-]|].
      destruct fuel as [|fuel]; cbn [fetch_channel_info]; [done|].
      destruct (Hservice (api_key w0) w0) as (w2 & -> & Hlog & Hchans).
      by intros [= <-]. }
  assert (api_log w' = api_log w /\ channels w' = channels w) as [Hlog Hchans].
  { revert w Hrun. induction cs as [|c cs IH]; intros w; cbn.
    - by intros [= <-].
    - destruct (click w c) as [w1|] eqn:Hc; [|done].
      intros [-> ->]%IH. by apply (Hclick c). }
  split_and!; [done|done|].
  - intros chans key now. unfold get_recent_videos.
    destruct chans as [|channel chans]; [done|].
    destruct (Hservice key w') as (w0 & -> & Hlog0 & _). done.
Qed.

(** X25. Without a key, or with a key and no channel, a run of the script
    shows the matching notice and changes nothing: no request is
    executed. *)
Theorem render_setup_notices folder_pick channel_pick type_filter now w :
  (api_key w = "" ->
   render folder_pick channel_pick type_filter now w = (info_no_api_key, w))
  /\ (api_key w <> "" -> channels w = [] ->
      render folder_pick channel_pick type_filter now w = (info_no_channels, w)).
Proof.
  unfold render, session_videos, dashboard. split.
  - intros Hkey. rewrite Hkey. cbn. by rewrite Hkey.
  - intros Hkey Hchans. destruct (String.eqb_spec (api_key w) ""); [done|].
    cbn [negb]. rewrite Hchans. cbn. rewrite Hchans.
    by destruct (String.eqb_spec (api_key w) "").
Qed.


End VideoRecords.

(** A call for two channels fills the cache; a minute later a call for
    the first channel alone, with the same key, returns the cached list:
    its video "w1" is of the second channel, one of the two. *)
Lemma videos_belong_to_channels_witness :
  let all := [Examples.cycle; Examples.second] in
  let w := start Examples.cycle_script "key" in
  let first := cached_get_recent_videos ∅ 0 1 all "key" Examples.now w in
  let again :=
    cached_get_recent_videos first.1.2 60 61 [Examples.cycle] "key"
      Examples.now first.2 in
  Forall (belongs_to all) first.1.1
  /\ Forall (belongs_to all) again.1.1
  /\ (exists v, v ∈ again.1.1 /\ v_id v = "w1" /\ v_channel_id v = "UC2").
Proof.
  intros all w first again.
  assert (all ⊆ all) as Hall by done.
  assert ([Examples.cycle] ⊆ all) as Hone.
  { intros channel ->%list_elem_of_singleton. left. }
  assert (cache_within all (∅ : gmap string CacheEntry)) as Hempty.
  { intros key e Hin. by rewrite lookup_empty in Hin. }
  destruct (videos_belong_to_channels ∅ 0 1 all "key" Examples.now w all
              Hall Hempty) as (_ & Hfirst & Hcache).
  destruct (videos_belong_to_channels first.1.2 60 61 [Examples.cycle] "key"
              Examples.now first.2 all Hone Hcache) as (_ & Hagain & _).
  split_and!; [exact Hfirst|exact Hagain|].
  eexists. split; [|split].
  - vm_compute. right. right. left.
  - reflexivity.
  - reflexivity.
Defined.

Lemma make_video_fallbacks_witness :
  let item := Examples.video_item "v1" "2024-01-10T00:00:00Z" "PT45S" in
  let medium_only :=
    {| vi_id := Some "v1";
       vi_snippet :=
         Some {| vs_title := Some "video v1";
                 vs_thumbnails :=
                   Some {[ "medium" := {| th_url := Some "https://img/m" |} ]};
                 vs_publishedAt := Some "2024-01-10T00:00:00Z" |};
       vi_statistics := vi_statistics item;
       vi_contentDetails := vi_contentDetails item |} in
  (exists v,
     make_video Examples.cycle item = inr v
     /\ v_thumbnail v = "https://img/v1"
     /\ v_comment_count v = 0%Z)
  /\ (exists e, make_video Examples.cycle medium_only = inl e).
Proof.
  intros item medium_only. split.
  - assert (exists v, make_video Examples.cycle item = inr v) as [v Hv]
      by (eexists; vm_compute; reflexivity).
    destruct (proj1 (make_video_fallbacks Examples.cycle item) v Hv)
      as (sn & th & fb & st & Hsn & Hth & Hfb & Hurl & Hst & _ & _ & Hcomments).
    exists v. split; [done|]. split.
    + vm_compute in Hv. by injection Hv as <-.
    + injection Hst as <-. by apply Hcomments.
  - eapply (proj2 (make_video_fallbacks Examples.cycle medium_only));
      reflexivity.
Defined.

Lemma offline_session_is_inert_witness :
  let w := start {| MoreExamples.offline_reason := "no network" |} "key" in
  exists w',
    run_clicks [click_add_channel 3 "@cycle" None 1700000000;
                click_add_folder "Road" 1700000003] w = Some w'
    /\ api_log w' = []
    /\ channels w' = []
    /\ (get_recent_videos [Examples.cycle] "key" Examples.now w').1 = [].
Proof.
  intros w.
  assert (exists w',
            run_clicks [click_add_channel 3 "@cycle" None 1700000000;
                        click_add_folder "Road" 1700000003] w = Some w')
    as [w' Hrun] by (eexists; vm_compute; reflexivity).
  assert (forall key (y : MoreExamples.Offline),
            exists e y', build key y = (inl e, y')) as Hoffline
    by (intros key y; eexists _, _; reflexivity).
  destruct (offline_session_is_inert _ w w' Hoffline Hrun)
    as (Hlog & Hchans & Hvideos).
  exists w'. split_and!; [done|done|done|].
  apply (Hvideos [Examples.cycle] "key" Examples.now).
Defined.

Lemma render_setup_notices_witness :
  render 0 0 All Examples.now (start Examples.cycle_script "")
  = (info_no_api_key, start Examples.cycle_script "")
  /\ render 0 0 All Examples.now (start Examples.cycle_script "key")
     = (info_no_channels, start Examples.cycle_script "key").
Proof.
  split.
  - apply (render_setup_notices 0 0 All Examples.now
             (start Examples.cycle_script "")). reflexivity.
  - apply (render_setup_notices 0 0 All Examples.now
             (start Examples.cycle_script "key")); [discriminate|reflexivity].
Defined.

